(** * Face_detection front-end: capture loop and live streaming loop

    A shallow embedding of the event handlers of
    [frontend/src/pages/StudentManagementPage.jsx] and
    [frontend/src/pages/AttendanceHubPage.jsx].

    A page is a record holding its React state variables ([useState]) and
    the [current] fields of its refs ([useRef]).  A handler is a function
    in a small state-and-output monad: it threads the page and the store
    of camera tracks, and collects the calls it makes to the outside
    (toasts, HTTP requests, camera requests, sockets, timers), in order.

    An [async] handler is cut at each [await]: [h_begin] runs up to the
    awaited call, [h_then] is the rest of the [try] block and [h_catch]
    the [catch] block.  State variables read inside a handler come from
    the render that created the closure, so a handler takes that rendered
    page [r] as an argument next to the live page it writes to. *)

From Stdlib Require Import ZArith List Bool Lia.
From stdpp Require Import base option list strings gmap.
Import ListNotations.

(** ** The browser and the backend, as seen from a handler *)

Module Browser.

(** [MediaStreamTrack.readyState]. *)
Inductive TrackState := Live | Ended.

(** A [MediaStream] is known by the handles of its tracks; the tracks
    themselves live in a store shared by everything that holds the
    stream. *)
Record MediaStream := { getTracks : list nat }.

Abbreviation Tracks := (gmap nat TrackState).

(** REST paths of the backend, with the interpolated value kept apart. *)
Inductive Endpoint :=
| Students                        (* /students/ *)
| StudentById (id : Z)            (* /students/${id} *)
| StudentFace (id : option Z)     (* /students/${capturing}/face *)
| AttendanceSessions              (* /attendance/sessions *)
| SessionLogs (id : Z)            (* /attendance/session/${sessionId}/logs *)
| AttendanceStart                 (* /attendance/start *)
| AttendanceStop                  (* /attendance/stop *)
| AttendanceOverride.             (* /attendance/override *)

Inductive Body :=
| NoBody
| Images (images : list string)
| Override (session_id student_id : Z) (status : string).

Inductive ToastKind := Success | Error.

Inductive Effect :=
| Toast (kind : ToastKind) (msg : string) (duration : option Z)
| Confirm (msg : string)
| GetUserMedia (width height : Z)
| ApiGet (path : Endpoint)
| ApiPost (path : Endpoint) (body : Body)
| ApiDelete (path : Endpoint)
| NewWebSocket (url : string)
| WsClose (ws : nat)
| SetInterval (ms : Z)
| ClearInterval (id : Z).

(** The calls that leave the browser. *)
Definition is_network (e : Effect) : bool :=
  match e with
  | ApiGet _ | ApiPost _ _ | ApiDelete _ | NewWebSocket _ => true
  | _ => false
  end.

(** The DELETE requests among a handler's calls, by path. *)
Definition delete_requests (es : list Effect) : list Endpoint :=
  omap (fun e => match e with ApiDelete path => Some path | _ => None end) es.

(** The calls that ask for the camera. *)
Definition is_camera (e : Effect) : bool :=
  match e with
  | GetUserMedia _ _ => true
  | _ => false
  end.

(** How an awaited call ends: the promise resolves with a value, or it
    rejects; [detail] is [err.response?.data?.detail]. *)
Inductive Outcome (A : Type) :=
| Resolved (a : A)
| Rejected (detail : option string).
Arguments Resolved {A} a.
Arguments Rejected {A} detail.

(** [detail || fallback] on a string that may be undefined. *)
Definition js_or (detail : option string) (fallback : string) : string :=
  match detail with
  | Some (String c s) => String c s
  | _ => fallback
  end.

(** Truthiness of a string, of a number, of a number-or-null. *)
Definition truthy_str (s : string) : bool :=
  match s with EmptyString => false | _ => true end.
Definition truthy_num (n : Z) : bool := negb (n =? 0)%Z.
Definition truthy_id (o : option Z) : bool :=
  match o with Some n => truthy_num n | None => false end.

(** *** The handler monad *)

Record Result (P A : Type) := mkResult {
  value : A;
  page : P;
  tracks : Tracks;
  effects : list Effect
}.
Arguments mkResult {P A}.
Arguments value {P A}.
Arguments page {P A}.
Arguments tracks {P A}.
Arguments effects {P A}.

Definition Act (P A : Type) : Type := P -> Tracks -> Result P A.

Definition act_ret {P A} (a : A) : Act P A :=
  fun p t => mkResult a p t [].

Definition act_bind {P A B} (f : A -> Act P B) (m : Act P A) : Act P B :=
  fun p t =>
    match m p t with
    | mkResult a p1 t1 e1 =>
        match f a p1 t1 with
        | mkResult b p2 t2 e2 => mkResult b p2 t2 (e1 ++ e2)
        end
    end.

#[export] Instance Act_ret {P} : MRet (Act P) := @act_ret P.
#[export] Instance Act_bind {P} : MBind (Act P) := @act_bind P.

Definition get {P} : Act P P := fun p t => mkResult p p t [].
Definition modify {P} (f : P -> P) : Act P unit :=
  fun p t => mkResult tt (f p) t [].
Definition emit {P} (e : Effect) : Act P unit :=
  fun p t => mkResult tt p t [e].
Definition skip {P} : Act P unit := mret tt.

(** [toast.success(msg)], [toast.error(msg)]. *)
Definition toast_success {P} (msg : string) : Act P unit :=
  emit (Toast Success msg None).
Definition toast_error {P} (msg : string) : Act P unit :=
  emit (Toast Error msg None).

(** [xs.forEach(f)]. *)
Fixpoint forEach {P A} (xs : list A) (f : A -> Act P unit) : Act P unit :=
  match xs with
  | [] => skip
  | x :: xs' => f x ;; forEach xs' f
  end.

(** [t.stop()]. *)
Definition stopTrack {P} (t : nat) : Act P unit :=
  fun p ts => mkResult tt p (<[t := Ended]> ts) [].

(** The browser grants the camera: the tracks of the new stream are
    live. *)
Definition acquire {P} (stream : MediaStream) : Act P unit :=
  fun p ts =>
    mkResult tt p (foldr (fun t m => <[t := Live]> m) ts (getTracks stream)) [].

(** No camera acquisition is active. *)
Definition camera_released (ts : Tracks) : Prop :=
  forall t, ts !! t <> Some Live.

End Browser.

(** ** StudentManagementPage.jsx *)

Module StudentManagementPage.
Import Browser.

Definition CAPTURE_ANGLES : list string := ["Front"; "Left"; "Right"; "Look Up"].

Record Student := {
  id : Z;
  full_name : string;
  college_roll_number : string;
  branch : string;
  semester : Z;
  has_face : bool
}.

Record Form := {
  name : string;
  email : string;
  password : string;
  form_college_roll_number : string;
  form_full_name : string;
  form_branch : string;
  form_semester : string
}.

Record HTMLVideoElement := { srcObject : option MediaStream }.
Record HTMLCanvasElement := { width : Z; height : Z }.

(** What the preview shows at the moment of a snapshot:
    [video.videoWidth], [video.videoHeight], and the part of
    [canvas.toDataURL('image/jpeg', 0.9)] after the comma. *)
Record Frame := { videoWidth : Z; videoHeight : Z; b64 : string }.

Record Page := {
  students : list Student;
  showForm : bool;
  form : Form;
  capturing : option Z;                 (* null, or the student_id *)
  capturedImages : list string;
  currentAngle : nat;
  videoRef : option HTMLVideoElement;   (* videoRef.current *)
  canvasRef : option HTMLCanvasElement; (* canvasRef.current *)
  streamRef : option MediaStream        (* streamRef.current *)
}.

Definition setStudents v p :=
  {| students := v; showForm := showForm p; form := form p;
     capturing := capturing p; capturedImages := capturedImages p;
     currentAngle := currentAngle p; videoRef := videoRef p;
     canvasRef := canvasRef p; streamRef := streamRef p |}.
Definition setCapturing v p :=
  {| students := students p; showForm := showForm p; form := form p;
     capturing := v; capturedImages := capturedImages p;
     currentAngle := currentAngle p; videoRef := videoRef p;
     canvasRef := canvasRef p; streamRef := streamRef p |}.
Definition setCapturedImages v p :=
  {| students := students p; showForm := showForm p; form := form p;
     capturing := capturing p; capturedImages := v;
     currentAngle := currentAngle p; videoRef := videoRef p;
     canvasRef := canvasRef p; streamRef := streamRef p |}.
Definition setCurrentAngle v p :=
  {| students := students p; showForm := showForm p; form := form p;
     capturing := capturing p; capturedImages := capturedImages p;
     currentAngle := v; videoRef := videoRef p;
     canvasRef := canvasRef p; streamRef := streamRef p |}.
Definition set_videoRef v p :=
  {| students := students p; showForm := showForm p; form := form p;
     capturing := capturing p; capturedImages := capturedImages p;
     currentAngle := currentAngle p; videoRef := v;
     canvasRef := canvasRef p; streamRef := streamRef p |}.
Definition set_canvasRef v p :=
  {| students := students p; showForm := showForm p; form := form p;
     capturing := capturing p; capturedImages := capturedImages p;
     currentAngle := currentAngle p; videoRef := videoRef p;
     canvasRef := v; streamRef := streamRef p |}.
Definition set_streamRef v p :=
  {| students := students p; showForm := showForm p; form := form p;
     capturing := capturing p; capturedImages := capturedImages p;
     currentAngle := currentAngle p; videoRef := videoRef p;
     canvasRef := canvasRef p; streamRef := v |}.

(** The page as [useState] and [useRef] initialise it. *)
Definition initial : Page :=
  {| students := []; showForm := false;
     form := {| name := ""; email := ""; password := "";
                form_college_roll_number := ""; form_full_name := "";
                form_branch := ""; form_semester := "" |};
     capturing := None; capturedImages := []; currentAngle := 0;
     videoRef := None; canvasRef := None; streamRef := None |}.

(** React commits a render: the capture modal, [{capturing && (...)}],
    holds the [<video>] and the [<canvas>]; they are created when the
    modal appears, kept while it stays, and the refs are nulled when it
    goes. *)
Definition commit (p : Page) : Page :=
  if truthy_id (capturing p) then
    set_canvasRef (Some (default {| width := 300; height := 150 |} (canvasRef p)))
      (set_videoRef (Some (default {| srcObject := None |} (videoRef p))) p)
  else set_canvasRef None (set_videoRef None p).

(** The Capture button, [{currentAngle < CAPTURE_ANGLES.length && ...}],
    inside the modal. *)
Definition capture_button (r : Page) : bool :=
  truthy_id (capturing r) && (currentAngle r <? length CAPTURE_ANGLES).

(** *** loadStudents *)
Definition loadStudents : Act Page unit := emit (ApiGet Students).
Definition loadStudents_then (data : list Student) : Act Page unit :=
  modify (setStudents data).
Definition loadStudents_catch : Act Page unit :=
  toast_error "Failed to load students".

(** *** handleDelete; [confirmed] is what [confirm(...)] returned. *)
Definition handleDelete_begin (confirmed : bool) (id : Z) : Act Page bool :=
  emit (Confirm "Delete this student?") ;;
  if negb confirmed then mret false
  else emit (ApiDelete (StudentById id)) ;; mret true.
Definition handleDelete_then : Act Page unit :=
  toast_success "Student deleted" ;; loadStudents.
Definition handleDelete_catch : Act Page unit :=
  toast_error "Failed to delete".

Definition handleDelete (confirmed : bool) (id : Z) (resp : Outcome unit)
  : Act Page unit :=
  awaiting ← handleDelete_begin confirmed id;
  if awaiting : bool then
    match resp with
    | Resolved _ => handleDelete_then
    | Rejected _ => handleDelete_catch
    end
  else skip.

(** *** startCapture *)
Definition startCapture_begin (studentId : Z) : Act Page unit :=
  modify (setCapturing (Some studentId)) ;;
  modify (setCapturedImages []) ;;
  modify (setCurrentAngle 0) ;;
  emit (GetUserMedia 640 480).
Definition startCapture_then (stream : MediaStream) : Act Page unit :=
  modify (set_streamRef (Some stream)) ;;
  p ← get;
  match videoRef p with
  | Some _ => modify (set_videoRef (Some {| srcObject := Some stream |}))
  | None => skip
  end.
Definition startCapture_catch : Act Page unit :=
  toast_error "Camera access denied" ;;
  modify (setCapturing None).

(** The whole of [startCapture], nothing else happening meanwhile: React
    re-renders while the camera request is pending and again after the
    handler has finished. *)
Definition startCapture (studentId : Z) (resp : Outcome MediaStream)
  : Act Page unit :=
  startCapture_begin studentId ;;
  modify commit ;;
  match resp with
  | Resolved stream => acquire stream ;; startCapture_then stream
  | Rejected _ => startCapture_catch
  end ;;
  modify commit.

(** *** captureFrame; [r] is the render whose [currentAngle] the
    callback closed over, [f] what the video shows. *)
Definition captureFrame (r : Page) (f : Frame) : Act Page unit :=
  p ← get;
  match videoRef p, canvasRef p with
  | Some video, Some canvas =>
      modify (set_canvasRef (Some {| width := videoWidth f; height := videoHeight f |})) ;;
      modify (fun p => setCapturedImages (capturedImages p ++ [b64 f]) p) ;;
      let nextAngle := currentAngle r + 1 in
      (if length CAPTURE_ANGLES <=? nextAngle
       then toast_success "All angles captured!" else skip) ;;
      modify (setCurrentAngle nextAngle)
  | _, _ => skip
  end.

(** A click on Capture: the callback of the last committed render runs,
    then React re-renders. *)
Definition clickCapture (f : Frame) : Act Page unit :=
  r ← get;
  captureFrame r f ;;
  modify commit.

(** *** stopCapture *)
Definition stopCapture : Act Page unit :=
  p ← get;
  match streamRef p with
  | Some stream =>
      forEach (getTracks stream) stopTrack ;;
      modify (set_streamRef None)
  | None => skip
  end ;;
  modify (setCapturing None) ;;
  modify (setCapturedImages []) ;;
  modify (setCurrentAngle 0).

(** *** submitFaces *)
Definition submitFaces_begin (r : Page) : Act Page bool :=
  if length (capturedImages r) =? 0 then
    toast_error "No images captured" ;; mret false
  else
    emit (ApiPost (StudentFace (capturing r)) (Images (capturedImages r))) ;;
    mret true.
Definition submitFaces_then : Act Page unit :=
  toast_success "Face registered successfully!" ;;
  stopCapture ;;
  loadStudents.
Definition submitFaces_catch (detail : option string) : Act Page unit :=
  toast_error (js_or detail "Face registration failed").

Definition submitFaces (r : Page) (resp : Outcome unit) : Act Page unit :=
  awaiting ← submitFaces_begin r;
  if awaiting : bool then
    match resp with
    | Resolved _ => submitFaces_then
    | Rejected detail => submitFaces_catch detail
    end
  else skip.

(** A run of clicks on Capture, one per frame. *)
Definition clicks (frames : list Frame) : Act Page unit :=
  forEach frames clickCapture.

(** A capture is in progress: the modal is on display, with its
    preview and canvas, and the page holds a camera stream. *)
Definition capture_active (p : Page) : Prop :=
  truthy_id (capturing p) = true
  /\ is_Some (streamRef p)
  /\ is_Some (videoRef p)
  /\ is_Some (canvasRef p).

(** Every live track of the store belongs to the stream the page
    holds: the page has at most one acquisition, and knows it. *)
Definition holds_camera (p : Page) (ts : Tracks) : Prop :=
  forall t, ts !! t = Some Live ->
    exists stream, streamRef p = Some stream /\ t ∈ getTracks stream.

(** *** The capture modal, as rendered from [r] *)

(** The colour class of progress step [i]. *)
Definition stepClass (r : Page) (i : nat) : string :=
  if i <? length (capturedImages r) then "bg-emerald-500"
  else if i =? currentAngle r then "bg-primary-500 animate-pulse"
  else "bg-white/10".

(** [CAPTURE_ANGLES.map((angle, i) => ...)]. *)
Definition progressSteps (r : Page) : list string :=
  imap (fun i _ => stepClass r i) CAPTURE_ANGLES.

(** The line under the progress steps: the angle to look at,
    [CAPTURE_ANGLES[currentAngle]], or the all-captured message. *)
Inductive Prompt :=
| LookAt (angle : option string)
| AllCaptured.

Definition prompt (r : Page) : Prompt :=
  if currentAngle r <? length CAPTURE_ANGLES
  then LookAt (CAPTURE_ANGLES !! currentAngle r)
  else AllCaptured.

(** The Save button, [{capturedImages.length > 0 && ...}], with the
    count it shows. *)
Definition save_button (r : Page) : option nat :=
  if truthy_id (capturing r) && (0 <? length (capturedImages r))
  then Some (length (capturedImages r))
  else None.

(** A click on Save, and a click on the cross of the modal: the handler
    of the last committed render runs, then React re-renders. *)
Definition clickSave (resp : Outcome unit) : Act Page unit :=
  r ← get;
  submitFaces r resp ;;
  modify commit.

Definition clickCancel : Act Page unit :=
  stopCapture ;;
  modify commit.

(** The modal is on display, with its preview and canvas: what the
    guard of [captureFrame] needs, with or without a stream. *)
Definition modal_mounted (p : Page) : Prop :=
  truthy_id (capturing p) = true
  /\ is_Some (videoRef p)
  /\ is_Some (canvasRef p).

(** The whole of a refused [startCapture], with the clicks on Capture
    that fall between the camera request and its refusal: the modal and
    its button are on display while the request is pending. *)
Definition startCapture_refused (studentId : Z) (frames : list Frame)
  : Act Page unit :=
  startCapture_begin studentId ;;
  modify commit ;;
  clicks frames ;;
  startCapture_catch ;;
  modify commit.

End StudentManagementPage.

(** ** AttendanceHubPage.jsx *)

Module AttendanceHubPage.
Import Browser.

Record Session := { session_id : Z; start_time : string; session_status : string }.

Record Log := {
  log_id : Z;
  student_id : Z;
  student_name : string;
  roll_number : string;
  status : string
}.

Record Summary := {
  summary_session_id : Z;
  total_students : Z;
  present_count : Z;
  absent_count : Z;
  summary_logs : list Log
}.

Record HTMLVideoElement := { srcObject : option MediaStream }.
Record HTMLCanvasElement := { width : Z; height : Z }.
Record HTMLImageElement := { src : string }.

(** A message of the server, after [JSON.parse(event.data)]:
    [{frame?: base64Jpeg, detections?: [{name, ...}]}]; [Unparsable] is
    text on which [JSON.parse] throws. *)
Record Detection := { name : string }.
Record ServerMsg := {
  frame : option string;
  detections : option (list Detection)
}.
Inductive WsData := Unparsable | Parsed (data : ServerMsg).

Record Page := {
  session : option Session;             (* active session *)
  logs : list Log;
  streaming : bool;
  summary : option Summary;
  videoRef : option HTMLVideoElement;
  canvasRef : option HTMLCanvasElement;
  streamRef : option MediaStream;
  wsRef : option nat;                   (* the socket, by its handle *)
  feedImgRef : option HTMLImageElement;
  intervalRef : option Z                (* what setInterval returned *)
}.

Definition setSession v p :=
  {| session := v; logs := logs p; streaming := streaming p;
     summary := summary p; videoRef := videoRef p; canvasRef := canvasRef p;
     streamRef := streamRef p; wsRef := wsRef p;
     feedImgRef := feedImgRef p; intervalRef := intervalRef p |}.
Definition setLogs v p :=
  {| session := session p; logs := v; streaming := streaming p;
     summary := summary p; videoRef := videoRef p; canvasRef := canvasRef p;
     streamRef := streamRef p; wsRef := wsRef p;
     feedImgRef := feedImgRef p; intervalRef := intervalRef p |}.
Definition setStreaming v p :=
  {| session := session p; logs := logs p; streaming := v;
     summary := summary p; videoRef := videoRef p; canvasRef := canvasRef p;
     streamRef := streamRef p; wsRef := wsRef p;
     feedImgRef := feedImgRef p; intervalRef := intervalRef p |}.
Definition setSummary v p :=
  {| session := session p; logs := logs p; streaming := streaming p;
     summary := v; videoRef := videoRef p; canvasRef := canvasRef p;
     streamRef := streamRef p; wsRef := wsRef p;
     feedImgRef := feedImgRef p; intervalRef := intervalRef p |}.
Definition set_videoRef v p :=
  {| session := session p; logs := logs p; streaming := streaming p;
     summary := summary p; videoRef := v; canvasRef := canvasRef p;
     streamRef := streamRef p; wsRef := wsRef p;
     feedImgRef := feedImgRef p; intervalRef := intervalRef p |}.
Definition set_canvasRef v p :=
  {| session := session p; logs := logs p; streaming := streaming p;
     summary := summary p; videoRef := videoRef p; canvasRef := v;
     streamRef := streamRef p; wsRef := wsRef p;
     feedImgRef := feedImgRef p; intervalRef := intervalRef p |}.
Definition set_streamRef v p :=
  {| session := session p; logs := logs p; streaming := streaming p;
     summary := summary p; videoRef := videoRef p; canvasRef := canvasRef p;
     streamRef := v; wsRef := wsRef p;
     feedImgRef := feedImgRef p; intervalRef := intervalRef p |}.
Definition set_wsRef v p :=
  {| session := session p; logs := logs p; streaming := streaming p;
     summary := summary p; videoRef := videoRef p; canvasRef := canvasRef p;
     streamRef := streamRef p; wsRef := v;
     feedImgRef := feedImgRef p; intervalRef := intervalRef p |}.
Definition set_feedImgRef v p :=
  {| session := session p; logs := logs p; streaming := streaming p;
     summary := summary p; videoRef := videoRef p; canvasRef := canvasRef p;
     streamRef := streamRef p; wsRef := wsRef p;
     feedImgRef := v; intervalRef := intervalRef p |}.
Definition set_intervalRef v p :=
  {| session := session p; logs := logs p; streaming := streaming p;
     summary := summary p; videoRef := videoRef p; canvasRef := canvasRef p;
     streamRef := streamRef p; wsRef := wsRef p;
     feedImgRef := feedImgRef p; intervalRef := v |}.

(** The page after its first render: only the capture canvas, which is
    outside every conditional, is in the document. *)
Definition initial : Page :=
  {| session := None; logs := []; streaming := false; summary := None;
     videoRef := None; canvasRef := Some {| width := 300; height := 150 |};
     streamRef := None; wsRef := None; feedImgRef := None;
     intervalRef := None |}.

(** React commits a render: [{streaming ? (<video/> <img/>) : ...}]. *)
Definition commit (p : Page) : Page :=
  if streaming p then
    set_feedImgRef (Some (default {| src := "" |} (feedImgRef p)))
      (set_videoRef (Some (default {| srcObject := None |} (videoRef p))) p)
  else set_feedImgRef None (set_videoRef None p).

(** *** loadLogs *)
Definition loadLogs (sessionId : Z) : Act Page unit :=
  emit (ApiGet (SessionLogs sessionId)).
Definition loadLogs_then (data : list Log) : Act Page unit :=
  modify (setLogs data).
Definition loadLogs_catch : Act Page unit := skip.

(** *** stopStreaming *)
Definition stopStreaming : Act Page unit :=
  p ← get;
  match intervalRef p with
  | Some timer =>
      if truthy_num timer
      then emit (ClearInterval timer) ;; modify (set_intervalRef None)
      else skip
  | None => skip
  end ;;
  p ← get;
  match wsRef p with
  | Some ws => emit (WsClose ws) ;; modify (set_wsRef None)
  | None => skip
  end ;;
  p ← get;
  match streamRef p with
  | Some stream =>
      forEach (getTracks stream) stopTrack ;;
      modify (set_streamRef None)
  | None => skip
  end ;;
  modify (setStreaming false).

(** *** stopSession *)
Definition stopSession_begin : Act Page unit :=
  stopStreaming ;;
  emit (ApiPost AttendanceStop NoBody).
Definition stopSession_then (data : Summary) : Act Page unit :=
  modify (setSummary (Some data)) ;;
  modify (setSession None) ;;
  toast_success "Session ended. Summary generated.".
Definition stopSession_catch (detail : option string) : Act Page unit :=
  toast_error (js_or detail "Failed to stop session").

Definition stopSession (resp : Outcome Summary) : Act Page unit :=
  stopSession_begin ;;
  match resp with
  | Resolved data => stopSession_then data
  | Rejected detail => stopSession_catch detail
  end.

(** *** toggleStatus; [session.id] is evaluated inside the [try], so a
    null session lands in the [catch] before any request is made. *)
Definition newStatus (log : Log) : string :=
  if String.eqb (status log) "present" then "absent" else "present".

Definition toggleStatus_begin (r : Page) (log : Log) : Act Page bool :=
  match session r with
  | Some s =>
      emit (ApiPost AttendanceOverride
              (Override (session_id s) (student_id log) (newStatus log))) ;;
      mret true
  | None => toast_error "Override failed" ;; mret false
  end.
Definition toggleStatus_then (r : Page) (log : Log) : Act Page unit :=
  match session r with
  | Some s =>
      loadLogs (session_id s) ;;
      toast_success (student_name log +:+ " marked " +:+ newStatus log)
  | None => toast_error "Override failed"
  end.
Definition toggleStatus_catch : Act Page unit :=
  toast_error "Override failed".

Definition toggleStatus (r : Page) (log : Log) (resp : Outcome unit)
  : Act Page unit :=
  awaiting ← toggleStatus_begin r log;
  if awaiting : bool then
    match resp with
    | Resolved _ => toggleStatus_then r log
    | Rejected _ => toggleStatus_catch
    end
  else skip.

(** *** The handlers of the socket; [sess] is the session the closure
    of [startStreaming] saw, which its guard has checked. *)
Definition ws_onopen (timer : Z) : Act Page unit :=
  modify (setStreaming true) ;;
  toast_success "Camera feed started" ;;
  emit (SetInterval 200) ;;
  modify (set_intervalRef (Some timer)).

Definition ws_onmessage (sess : Session) (event : WsData) : Act Page unit :=
  match event with
  | Unparsable => skip
  | Parsed data =>
      p ← get;
      match frame data, feedImgRef p with
      | Some f, Some _ =>
          if truthy_str f
          then modify (set_feedImgRef
                         (Some {| src := "data:image/jpeg;base64," +:+ f |}))
          else skip
      | _, _ => skip
      end ;;
      match detections data with
      | Some dets =>
          if 0 <? length dets then
            forEach dets (fun det =>
              emit (Toast Success ("✅ " +:+ name det +:+ " marked present")
                          (Some 3000%Z))) ;;
            loadLogs (session_id sess)
          else skip
      | None => skip
      end
  end.

Definition ws_onerror : Act Page unit :=
  toast_error "WebSocket connection error".
Definition ws_onclose : Act Page unit :=
  modify (setStreaming false).

(** *** startStreaming; [wsHost] is the configured or derived host,
    [ws] the handle of the socket the browser creates.
    [startStreaming_then] is the run in which [new WebSocket(...)]
    returns; [startStreaming_then_throw], below, the one in which it
    throws. *)
Definition startStreaming_begin (r : Page) : Act Page bool :=
  match session r with
  | None => toast_error "Start a session first" ;; mret false
  | Some _ => emit (GetUserMedia 640 480) ;; mret true
  end.
Definition startStreaming_then (wsHost : string) (ws : nat)
    (stream : MediaStream) : Act Page unit :=
  modify (set_streamRef (Some stream)) ;;
  p ← get;
  match videoRef p with
  | Some _ => modify (set_videoRef (Some {| srcObject := Some stream |}))
  | None => skip
  end ;;
  emit (NewWebSocket (wsHost +:+ "/api/attendance/ws")) ;;
  modify (set_wsRef (Some ws)).
Definition startStreaming_catch : Act Page unit :=
  toast_error "Camera access denied".

Definition startStreaming (r : Page) (wsHost : string) (ws : nat)
    (resp : Outcome MediaStream) : Act Page unit :=
  awaiting ← startStreaming_begin r;
  if awaiting : bool then
    match resp with
    | Resolved stream => acquire stream ;; startStreaming_then wsHost ws stream
    | Rejected _ => startStreaming_catch
    end
  else skip.

(** The image on display: the [src] of the feed [<img>], if there is
    one in the document. *)
Definition displayed (p : Page) : option string := src <$> feedImgRef p.

(** The payload a message shows: its [frame], when that is a non-empty
    string. *)
Definition shown_frame (event : WsData) : option string :=
  match event with
  | Parsed data =>
      match frame data with
      | Some f => if truthy_str f then Some f else None
      | None => None
      end
  | Unparsable => None
  end.

(** The payload of a message that has a [frame] field at all. *)
Definition carried_frame (event : WsData) : option string :=
  match event with
  | Parsed data => frame data
  | Unparsable => None
  end.

(** The inbound messages of a streaming session, handled in the order
    of arrival. *)
Definition messages (sess : Session) (events : list WsData) : Act Page unit :=
  forEach events (ws_onmessage sess).

(** [data:image/jpeg;base64,${data.frame}]. *)
Definition data_url (f : string) : string := "data:image/jpeg;base64," +:+ f.

(** Nothing of a streaming loop is left on the page. *)
Definition stopped (p : Page) : Prop :=
  truthy_id (intervalRef p) = false
  /\ wsRef p = None
  /\ streamRef p = None
  /\ streaming p = false.

(** *** checkActiveSession, run on mount *)
Definition checkActiveSession_begin : Act Page unit :=
  emit (ApiGet AttendanceSessions).
Definition checkActiveSession_then (data : list Session) : Act Page unit :=
  match List.find (fun s => String.eqb (session_status s) "active") data with
  | Some active =>
      modify (setSession (Some active)) ;;
      loadLogs (session_id active)
  | None => skip
  end.
Definition checkActiveSession_catch : Act Page unit := skip.

Definition checkActiveSession (resp : Outcome (list Session)) : Act Page unit :=
  checkActiveSession_begin ;;
  match resp with
  | Resolved data => checkActiveSession_then data
  | Rejected _ => checkActiveSession_catch
  end.

(** *** startSession *)
Definition startSession_begin : Act Page unit :=
  emit (ApiPost AttendanceStart NoBody).
Definition startSession_then (data : Session) : Act Page unit :=
  modify (setSession (Some data)) ;;
  modify (setSummary None) ;;
  toast_success "Attendance session started!" ;;
  loadLogs (session_id data).
Definition startSession_catch (detail : option string) : Act Page unit :=
  toast_error (js_or detail "Failed to start session").

Definition startSession (resp : Outcome Session) : Act Page unit :=
  startSession_begin ;;
  match resp with
  | Resolved data => startSession_then data
  | Rejected detail => startSession_catch detail
  end.

(** *** sendFrame, the callback of the timer.  It talks to the socket
    only, so it is given as a function of the page: the page it leaves
    and the message it sends, if any.  [readyState] is the state of each
    socket at that moment, [f] what the hidden video shows, and [r] the
    render whose [session] the callback closed over. *)
Inductive ReadyState := CONNECTING | OPEN | CLOSING | CLOSED.

Record Frame := { videoWidth : Z; videoHeight : Z; b64 : string }.

(** [JSON.stringify({ frame: b64, session_id: session?.id })] handed to
    [send] of socket [out_ws]. *)
Record Outbound := {
  out_ws : nat;
  out_frame : string;
  out_session_id : option Z
}.

(** [n || fallback] on numbers. *)
Definition num_or (n fallback : Z) : Z :=
  if truthy_num n then n else fallback.

Definition sendFrame (r : Page) (readyState : nat -> ReadyState) (f : Frame)
    (p : Page) : Page * option Outbound :=
  match videoRef p, canvasRef p, wsRef p with
  | Some _, Some _, Some ws =>
      match readyState ws with
      | OPEN =>
          (set_canvasRef
             (Some {| width := num_or (videoWidth f) 640;
                      height := num_or (videoHeight f) 480 |}) p,
           Some {| out_ws := ws; out_frame := b64 f;
                   out_session_id := session_id <$> session r |})
      | _ => (p, None)
      end
  | _, _, _ => (p, None)
  end.

(** *** What the page shows, rendered from [r] *)

Definition presentCount (r : Page) : nat :=
  length (List.filter (fun l => String.eqb (status l) "present") (logs r)).
Definition absentCount (r : Page) : nat :=
  length (List.filter (fun l => String.eqb (status l) "absent") (logs r)).

(** The buttons of the header:
    [{!session ? Start Session : <>{!streaming ? Start Camera : Stop Camera} End Session</>}]. *)
Inductive Control := StartSession | StartCamera | StopCamera | EndSession.

Definition controls (r : Page) : list Control :=
  match session r with
  | None => [StartSession]
  | Some _ => [if streaming r then StopCamera else StartCamera; EndSession]
  end.

(** The override button of a roll-call row, [{session && <button>}], with
    its label. *)
Definition override_button (r : Page) (log : Log) : option string :=
  match session r with
  | Some _ =>
      Some (if String.eqb (status log) "present"
            then "Mark Absent" else "Mark Present")
  | None => None
  end.

(** *** Clicks: the handler of the last committed render runs, then React
    re-renders. *)
Definition clickStartCamera (wsHost : string) (ws : nat)
    (resp : Outcome MediaStream) : Act Page unit :=
  r ← get;
  startStreaming r wsHost ws resp ;;
  modify commit.

Definition clickStopCamera : Act Page unit :=
  stopStreaming ;;
  modify commit.

(** The socket opens, and React re-renders. *)
Definition opened (timer : Z) : Act Page unit :=
  ws_onopen timer ;;
  modify commit.

(** The server closes the socket, and React re-renders. *)
Definition closed : Act Page unit :=
  ws_onclose ;;
  modify commit.

(** The notifications and the reload a message causes. *)
Definition notifications (sess : Session) (event : WsData) : list Effect :=
  match event with
  | Parsed data =>
      match detections data with
      | Some (det :: dets) =>
          map (fun det => Toast Success ("✅ " +:+ name det +:+ " marked present")
                               (Some 3000%Z)) (det :: dets)
          ++ [ApiGet (SessionLogs (session_id sess))]
      | _ => []
      end
  | Unparsable => []
  end.

(** *** startStreaming when [new WebSocket(...)] throws (a host that is
    not a valid URL): the stream is already stored, the rest of the
    [try] is skipped and the [catch] runs. *)
Definition startStreaming_then_throw (stream : MediaStream) : Act Page unit :=
  modify (set_streamRef (Some stream)) ;;
  p ← get;
  match videoRef p with
  | Some _ => modify (set_videoRef (Some {| srcObject := Some stream |}))
  | None => skip
  end ;;
  startStreaming_catch.

(** A click on Start Camera on which the socket cannot be created. *)
Definition clickStartCamera_throw (stream : MediaStream) : Act Page unit :=
  r ← get;
  awaiting ← startStreaming_begin r;
  (if awaiting : bool
   then acquire stream ;; startStreaming_then_throw stream
   else skip) ;;
  modify commit.

(** *** The running loop: the timer fires, [sendFrame] runs; its value
    is what it hands to the socket. *)
Definition tick (r : Page) (readyState : nat -> ReadyState) (f : Frame)
  : Act Page (option Outbound) :=
  fun p ts =>
    mkResult (snd (sendFrame r readyState f p))
             (fst (sendFrame r readyState f p)) ts [].

(** What happens while the loop runs: a message arrives, or the timer
    fires, with the sockets in some state and the video showing some
    frame. *)
Inductive LoopEvent :=
| Inbound (event : WsData)
| Tick (readyState : nat -> ReadyState) (f : Frame).

Definition loop_step (r : Page) (sess : Session) (e : LoopEvent)
  : Act Page unit :=
  match e with
  | Inbound event => ws_onmessage sess event
  | Tick readyState f => tick r readyState f ;; skip
  end.

(** The events of a loop in the order they happen; [r] is the render
    [startStreaming] ran in, and [sess] its session. *)
Definition loop (r : Page) (sess : Session) (events : list LoopEvent)
  : Act Page unit :=
  forEach events (loop_step r sess).



End AttendanceHubPage.

(** ** App.jsx: the routes that show the two pages *)

Module App.

Record User := { user_name : string; role : string }.

(** What [useAuth()] hands to the router. *)
Record Auth := { user : option User; loading : bool; isAdmin : bool }.

Inductive Screen :=
| LoginPage | DashboardPage | StudentManagementPage | AttendanceHubPage
| StudentViewPage.

Inductive Element :=
| Render (screen : Screen)
| Spinner
| Navigate (to : string).

Definition ProtectedRoute (auth : Auth) (adminOnly : bool) (children : Element)
  : Element :=
  if loading auth then Spinner
  else match user auth with
       | None => Navigate "/login"
       | Some _ =>
           if adminOnly && negb (isAdmin auth)
           then Navigate "/student-view"
           else children
       end.

(** The [<Route path=... element=... />] table of [App], in order. *)
Definition routes (auth : Auth) : list (string * Element) :=
  [ ("/login", Render LoginPage);
    ("/dashboard", ProtectedRoute auth true (Render DashboardPage));
    ("/students", ProtectedRoute auth true (Render StudentManagementPage));
    ("/attendance", ProtectedRoute auth true (Render AttendanceHubPage));
    ("/student-view", ProtectedRoute auth false (Render StudentViewPage));
    ("*", match user auth with
          | Some u =>
              Navigate (if String.eqb (role u) "admin"
                        then "/dashboard" else "/student-view")
          | None => Navigate "/login"
          end) ].

(** The element of the route whose path is written [path]. *)
Definition element_at (auth : Auth) (path : string) : option Element :=
  snd <$> List.find (fun route => String.eqb (fst route) path) (routes auth).

(** Follows redirects, at most [n] of them, to the screen shown. *)
Fixpoint settle (n : nat) (auth : Auth) (e : Element) : option Screen :=
  match e with
  | Render screen => Some screen
  | Spinner => None
  | Navigate to =>
      match n with
      | 0 => None
      | S n' =>
          match element_at auth to with
          | Some e' => settle n' auth e'
          | None => None
          end
      end
  end.

(** The screens behind [adminOnly]. *)
Definition admin_screen (screen : Screen) : bool :=
  match screen with
  | DashboardPage | StudentManagementPage | AttendanceHubPage => true
  | LoginPage | StudentViewPage => false
  end.

End App.

Module SM := StudentManagementPage.
Module Hub := AttendanceHubPage.
Import Browser.

(** ** Running handlers *)

(** Unfolds the monad down to the record a handler returns. *)
Ltac run_act :=
  cbv [mbind mret Act_bind Act_ret act_bind act_ret get modify emit skip
       toast_error toast_success acquire];
  cbn [app value page tracks effects].

(** Projections and setters of the two page records. *)
Ltac sm_fields :=
  cbn [SM.students SM.showForm SM.form SM.capturing SM.capturedImages
       SM.currentAngle SM.videoRef SM.canvasRef SM.streamRef
       SM.setStudents SM.setCapturing SM.setCapturedImages
       SM.setCurrentAngle SM.set_videoRef SM.set_canvasRef SM.set_streamRef
       default from_option] in *.

Ltac hub_fields :=
  cbn [Hub.session Hub.logs Hub.streaming Hub.summary Hub.videoRef
       Hub.canvasRef Hub.streamRef Hub.wsRef Hub.feedImgRef Hub.intervalRef
       Hub.setSession Hub.setLogs Hub.setStreaming Hub.setSummary
       Hub.set_videoRef Hub.set_canvasRef Hub.set_streamRef Hub.set_wsRef
       Hub.set_feedImgRef Hub.set_intervalRef default from_option] in *.

(** ** Stopping the tracks of a stream *)

Section StopTracks.
Context {P : Type}.

(** [forEach] over [stopTrack] touches the track store only. *)
Lemma forEach_stopTrack (l : list nat) :
  forall (p : P) (ts : Tracks),
    forEach l stopTrack p ts
    = mkResult tt p (foldl (fun m t => <[t := Ended]> m) ts l) [].
Proof.
  induction l as [|t l IH]; intros p ts; [reflexivity|].
  cbn [forEach foldl]. unfold mbind, Act_bind, act_bind.
  change (stopTrack t p ts) with (mkResult tt p (<[t := Ended]> ts) []).
  cbv beta iota. rewrite IH. reflexivity.
Qed.

Lemma stopped_lookup (l : list nat) :
  forall (ts : Tracks) (t : nat),
    foldl (fun m t => <[t := Ended]> m) ts l !! t
    = if decide (t ∈ l) then Some Ended else ts !! t.
Proof.
  induction l as [|a l IH]; intros ts t; cbn [foldl].
  - case_decide as H; [by apply elem_of_nil in H | done].
  - rewrite IH.
    destruct (decide (t ∈ l)) as [Hl|Hl], (decide (t ∈ a :: l)) as [Hal|Hal];
      try done.
    + set_solver.
    + apply elem_of_cons in Hal as [->|Hin]; [by rewrite lookup_insert_eq | done].
    + rewrite lookup_insert_ne; [done | set_solver].
Qed.

(** After stopping the tracks of [l], a track is live only if it was
    live before and is not one of [l]. *)
Lemma stopped_live (l : list nat) (ts : Tracks) (t : nat) :
  foldl (fun m t => <[t := Ended]> m) ts l !! t = Some Live ->
  ts !! t = Some Live /\ t ∉ l.
Proof.
  rewrite stopped_lookup. case_decide; [discriminate | auto].
Qed.

End StopTracks.

(** ** The capture loop *)

Section CaptureLoop.
Import SM.

Lemma clickCapture_active (f : Frame) (p : Page) (ts : Tracks) :
  capture_active p ->
  let res := clickCapture f p ts in
  capturedImages (page res) = capturedImages p ++ [b64 f]
  /\ currentAngle (page res) = currentAngle p + 1
  /\ capture_active (page res)
  /\ streamRef (page res) = streamRef p
  /\ tracks res = ts.
Proof.
  intros (Hid & [st Hst] & [v Hv] & [c Hc]).
  destruct p as [sts sf fm cap imgs ang vr cr sr]; sm_fields; subst.
  unfold clickCapture, captureFrame, commit. run_act. sm_fields.
  destruct (length CAPTURE_ANGLES <=? ang + 1); run_act; sm_fields;
    rewrite Hid; unfold capture_active; sm_fields; eauto 10.
Qed.

Lemma clicks_active (frames : list Frame) :
  forall (p : Page) (ts : Tracks),
    capture_active p ->
    let res := clicks frames p ts in
    capturedImages (page res) = capturedImages p ++ map b64 frames
    /\ currentAngle (page res) = currentAngle p + length frames
    /\ capture_active (page res)
    /\ streamRef (page res) = streamRef p
    /\ tracks res = ts.
Proof.
  induction frames as [|f frames IH]; intros p ts Hact.
  - cbn. rewrite app_nil_r, Nat.add_0_r. auto.
  - pose proof (clickCapture_active f p ts Hact) as Hstep. cbn zeta in Hstep.
    unfold clicks in *. cbn [forEach]. unfold mbind, Act_bind, act_bind.
    destruct (clickCapture f p ts) as [[] p1 t1 e1]. cbn [page tracks] in Hstep.
    destruct Hstep as (Hi & Ha & Hact' & Hs & ->).
    specialize (IH p1 ts Hact'). cbn zeta in IH.
    destruct (forEach frames clickCapture p1 ts) as [[] p2 t2 e2].
    cbn [page tracks] in IH |- *.
    destruct IH as (Hi2 & Ha2 & Hact2 & Hs2 & ->).
    rewrite Hi2, Ha2, Hs2, Hi, Ha, Hs, <- app_assoc. cbn [map length].
    split; [reflexivity | split; [lia | split; [exact Hact2 | split; reflexivity]]].
Qed.

(** A start from a page without a stream, the camera free, makes the
    page hold the camera; clicks on Capture keep it so. *)
Lemma startCapture_holds_camera
    (studentId : Z) (stream : MediaStream) (p : Page) (ts : Tracks) :
  camera_released ts ->
  let res := startCapture studentId (Resolved stream) p ts in
  streamRef (page res) = Some stream /\ holds_camera (page res) (tracks res).
Proof.
  intros Hfree.
  assert (Hs : streamRef (page (startCapture studentId (Resolved stream) p ts))
               = Some stream).
  { destruct p as [sts sf fm cap imgs ang vr cr sr].
    unfold startCapture, startCapture_begin, startCapture_then, acquire.
    run_act. unfold commit. sm_fields. cbn [truthy_id].
    destruct (truthy_num studentId); sm_fields; cbn [truthy_id];
      rewrite ?Tauto.if_same; sm_fields;
      destruct (truthy_num studentId); reflexivity. }
  split; [exact Hs|].
  intros t Hlive. exists stream. split; [exact Hs|].
  assert (Hts : tracks (startCapture studentId (Resolved stream) p ts)
                = foldr (fun t m => <[t := Live]> m) ts (getTracks stream)).
  { unfold startCapture, startCapture_begin, startCapture_then, acquire.
    run_act. destruct (videoRef _); reflexivity. }
  rewrite Hts in Hlive. clear Hs Hts.
  induction (getTracks stream) as [|a l IH]; cbn [foldr] in Hlive.
  - by apply Hfree in Hlive.
  - destruct (decide (a = t)) as [->|Hne]; [set_solver|].
    rewrite lookup_insert_ne in Hlive by done. set_solver.
Qed.

Lemma clicks_hold_camera (frames : list Frame) (p : Page) (ts : Tracks) :
  capture_active p -> holds_camera p ts ->
  let res := clicks frames p ts in
  holds_camera (page res) (tracks res).
Proof.
  intros Hact Hown.
  destruct (clicks_active frames p ts Hact) as (_ & _ & _ & Hs & Ht).
  cbn zeta. unfold holds_camera. rewrite Hs, Ht. exact Hown.
Qed.

End CaptureLoop.

(** [C1] From a fresh capture in progress (stream active, nothing
    captured, angle index 0), k clicks on Capture with k at most the
    number of angles leave exactly k captured images, in the order
    taken, and the angle index at k; the Capture button was on display
    before each of the k clicks. *)
Theorem capture_sequence_counts
  (p : SM.Page) (ts : Tracks) (frames : list SM.Frame) :
  SM.capture_active p ->
  SM.capturedImages p = [] ->
  SM.currentAngle p = 0 ->
  length frames <= length SM.CAPTURE_ANGLES ->
  let p' := page (SM.clicks frames p ts) in
  length (SM.capturedImages p') = length frames
  /\ SM.currentAngle p' = length frames
  /\ SM.capturedImages p' = map SM.b64 frames
  /\ forall i, i < length frames ->
       SM.capture_button (page (SM.clicks (take i frames) p ts)) = true.
Proof.
  intros Hact Himgs Hang Hk.
  destruct (clicks_active frames p ts Hact) as (Hi & Ha & _).
  cbn zeta. rewrite Hi, Ha, Himgs, Hang. cbn [app].
  rewrite length_map. repeat split; auto.
  intros i Hi'.
  destruct (clicks_active (take i frames) p ts Hact) as (_ & Ha' & Hact' & _).
  unfold SM.capture_button. destruct Hact' as (-> & _).
  rewrite Ha', Hang, length_take, andb_true_l. apply Nat.ltb_lt. lia.
Qed.

Lemma capture_sequence_counts_witness :
  let p := page (SM.startCapture 7 (Resolved {| getTracks := [1] |}) SM.initial ∅) in
  let frames := [ {| SM.videoWidth := 640; SM.videoHeight := 480; SM.b64 := "QQ==" |};
                  {| SM.videoWidth := 640; SM.videoHeight := 480; SM.b64 := "Qg==" |};
                  {| SM.videoWidth := 640; SM.videoHeight := 480; SM.b64 := "Qw==" |};
                  {| SM.videoWidth := 640; SM.videoHeight := 480; SM.b64 := "RA==" |} ] in
  length (SM.capturedImages (page (SM.clicks frames p ∅))) = 4
  /\ SM.currentAngle (page (SM.clicks frames p ∅)) = 4.
Proof.
  intros p frames.
  assert (Hact : SM.capture_active p).
  { unfold SM.capture_active. cbn. repeat split; eauto. }
  destruct (capture_sequence_counts p ∅ frames Hact eq_refl eq_refl) as (H1 & H2 & _).
  - cbn. lia.
  - split; [exact H1 | exact H2].
Defined.

(** ** Submitting and cancelling *)

(** [C2] submitFaces with an empty captured-image list fails locally with
    the "No images captured" error: whatever the backend would have
    answered, no request is made, and the page (captured list, angle
    index, capture marker, stream handle) and the camera tracks are left
    as they were. *)
Theorem submitFaces_empty_fails_locally
  (r p : SM.Page) (ts : Tracks) (resp : Outcome unit) :
  SM.capturedImages r = [] ->
  let res := SM.submitFaces r resp p ts in
  effects res = [Toast Error "No images captured" None]
  /\ Forall (fun e => is_network e = false) (effects res)
  /\ page res = p
  /\ tracks res = ts.
Proof.
  intros Hempty. unfold SM.submitFaces, SM.submitFaces_begin.
  rewrite Hempty. cbn [length Nat.eqb]. run_act.
  repeat split; auto.
Qed.

Lemma submitFaces_empty_fails_locally_witness :
  let res := SM.submitFaces SM.initial (Resolved tt) SM.initial ∅ in
  effects res = [Toast Error "No images captured" None]
  /\ page res = SM.initial.
Proof.
  destruct (submitFaces_empty_fails_locally SM.initial SM.initial ∅
              (Resolved tt) eq_refl) as (H1 & _ & H2 & _).
  auto.
Defined.


Section CaptureEnd.
Import SM.

Lemma stopCapture_run (p : Page) (ts : Tracks) :
  stopCapture p ts
  = mkResult tt
      (setCurrentAngle 0 (setCapturedImages [] (setCapturing None
         (set_streamRef None p))))
      (match streamRef p with
       | Some stream => foldl (fun m t => <[t := Ended]> m) ts (getTracks stream)
       | None => ts
       end)
      [].
Proof.
  unfold stopCapture. destruct p as [sts sf fm cap imgs ang vr cr [stream|]].
  - unfold mbind, Act_bind, act_bind at 1 2 3 4. cbn [get value page tracks effects].
    sm_fields. unfold mbind, Act_bind, act_bind. rewrite forEach_stopTrack.
    reflexivity.
  - reflexivity.
Qed.

Lemma stopCapture_releases (p : Page) (ts : Tracks) :
  let res := stopCapture p ts in
  streamRef (page res) = None
  /\ (forall stream t, streamRef p = Some stream -> t ∈ getTracks stream ->
        tracks res !! t = Some Ended)
  /\ (holds_camera p ts -> camera_released (tracks res))
  /\ currentAngle (page res) = 0
  /\ capturedImages (page res) = []
  /\ capturing (page res) = None
  /\ effects res = [].
Proof.
  rewrite stopCapture_run. cbn [page tracks effects]. sm_fields.
  repeat split; auto.
  - intros stream t -> Hin. rewrite stopped_lookup. by case_decide.
  - intros Hown t Hlive. destruct (streamRef p) as [stream|] eqn:Hs.
    + apply stopped_live in Hlive as [Hlive Hnot].
      destruct (Hown t Hlive) as (stream' & Heq & Hin).
      rewrite Hs in Heq. injection Heq as <-. contradiction.
    + destruct (Hown t Hlive) as (stream' & Heq & _). congruence.
Qed.

End CaptureEnd.

(** A capture whose page still has, in the track store, the stream of
    an earlier start: that start was cancelled while the camera request
    was pending, the grant arrived afterwards, and the next start wrote
    its own stream over the handle.  Cancelling this capture, or saving
    it with success, stops the second stream only: the track of the
    first is still live, so a camera acquisition remains active. *)
Lemma capture_end_leaves_earlier_stream_live :
  let first := {| getTracks := [1] |} in
  let second := {| getTracks := [2] |} in
  let f := {| SM.videoWidth := 640; SM.videoHeight := 480; SM.b64 := "QQ==" |} in
  let before :=
    (SM.startCapture_begin 7 ;; modify SM.commit ;;
     SM.stopCapture ;; modify SM.commit ;;
     acquire first ;; SM.startCapture_then first ;; modify SM.commit ;;
     SM.startCapture 7 (Resolved second) ;;
     SM.clicks [f]) SM.initial ∅ in
  let cancelled := SM.stopCapture (page before) (tracks before) in
  let saved := SM.submitFaces (page before) (Resolved tt)
                 (page before) (tracks before) in
  (SM.capturing (page before) = Some 7%Z
   /\ SM.streamRef (page before) = Some second
   /\ SM.capturedImages (page before) = ["QQ=="])
  /\ (SM.streamRef (page cancelled) = None
      /\ tracks cancelled !! 1 = Some Live
      /\ ~ camera_released (tracks cancelled))
  /\ (SM.streamRef (page saved) = None
      /\ tracks saved !! 1 = Some Live
      /\ ~ camera_released (tracks saved)).
Proof.
  cbv zeta.
  repeat split; try (vm_compute; reflexivity);
    intros Hrel; apply (Hrel 1); vm_compute; reflexivity.
Qed.

(** [C3, amended] stopCapture, and a submitFaces whose request succeeds,
    stop every track of the stream the page holds and clear the stream
    handle, reset the angle index to 0, empty the captured-image list and
    clear the capture marker; when that stream is the page's one
    acquisition (every live track belongs to it), no track at all is
    live afterwards. *)
Theorem capture_end_releases_camera (p : SM.Page) (ts : Tracks) :
  let ended (res : Result SM.Page unit) :=
    SM.streamRef (page res) = None
    /\ (forall stream t, SM.streamRef p = Some stream -> t ∈ getTracks stream ->
          tracks res !! t = Some Ended)
    /\ (SM.holds_camera p ts -> camera_released (tracks res))
    /\ SM.currentAngle (page res) = 0
    /\ SM.capturedImages (page res) = []
    /\ SM.capturing (page res) = None in
  ended (SM.stopCapture p ts)
  /\ forall r, SM.capturedImages r <> [] ->
       ended (SM.submitFaces r (Resolved tt) p ts).
Proof.
  intros ended.
  pose proof (stopCapture_releases p ts) as Hstop. cbn zeta in Hstop.
  destruct Hstop as (H1 & H2 & H3 & H4 & H5 & H6 & _).
  split; [unfold ended; auto 10|].
  intros r Hr. unfold SM.submitFaces, SM.submitFaces_begin.
  destruct (SM.capturedImages r) as [|img imgs]; [done|].
  cbn [length Nat.eqb]. unfold SM.submitFaces_then, SM.loadStudents.
  run_act. remember (SM.stopCapture p ts) as res eqn:Hres.
  destruct res as [[] p1 t1 e1]. unfold ended. cbn [page tracks] in *.
  auto 10.
Qed.

Lemma capture_end_releases_camera_witness :
  let p := SM.set_streamRef (Some {| getTracks := [1] |}) SM.initial in
  let ts : Tracks := {[ 1 := Live ]} in
  camera_released (tracks (SM.stopCapture p ts))
  /\ SM.currentAngle (page (SM.stopCapture p ts)) = 0
  /\ camera_released
       (tracks (SM.submitFaces (SM.setCapturedImages ["QQ=="] p) (Resolved tt) p ts)).
Proof.
  intros p ts.
  assert (Hown : SM.holds_camera p ts).
  { intros t Hlive. exists {| getTracks := [1] |}. split; [reflexivity|].
    apply lookup_singleton_Some in Hlive as [<- _]. apply list_elem_of_here. }
  destruct (capture_end_releases_camera p ts) as [Hstop Hsubmit].
  destruct Hstop as (_ & _ & Hrel & Hang & _).
  destruct (Hsubmit (SM.setCapturedImages ["QQ=="] p)) as (_ & _ & Hrel' & _);
    [discriminate|].
  auto.
Defined.

(** A cancel does not withdraw a camera request that is still pending:
    when the grant arrives afterwards, the stream is stored on a page
    that shows no capture, and its track is live. *)
Remark grant_after_cancel :
  let cam := {| getTracks := [1] |} in
  let res := (SM.startCapture_begin 7 ;; modify SM.commit ;;
              SM.stopCapture ;; modify SM.commit ;;
              acquire cam ;; SM.startCapture_then cam) SM.initial ∅ in
  SM.capturing (page res) = None
  /\ SM.streamRef (page res) = Some cam
  /\ tracks res !! 1 = Some Live.
Proof.
  vm_compute. auto.
Qed.

(** ** captureFrame and the camera stream *)

(** While the camera request of startCapture is pending, the modal is
    already on display and the page holds no stream; a click on Capture
    then stores the (empty) encoding of the blank preview and advances
    the angle index.  So captureFrame without an active stream is not a
    no-op. *)
Lemma captureFrame_without_stream_appends :
  let p := page ((SM.startCapture_begin 7 ;; modify SM.commit) SM.initial ∅) in
  let blank := {| SM.videoWidth := 0; SM.videoHeight := 0; SM.b64 := "" |} in
  let res := SM.captureFrame p blank p ∅ in
  SM.streamRef p = None
  /\ SM.capturedImages p = [] /\ SM.capturedImages (page res) = [""]
  /\ SM.currentAngle p = 0 /\ SM.currentAngle (page res) = 1
  /\ page res <> p.
Proof.
  cbn. repeat split; try reflexivity. discriminate.
Qed.

Lemma captureFrame_guard (r p : SM.Page) (f : SM.Frame) (ts : Tracks) :
  SM.videoRef p = None \/ SM.canvasRef p = None ->
  SM.captureFrame r f p ts = mkResult tt p ts [].
Proof.
  intros H. unfold SM.captureFrame, mbind, Act_bind, act_bind.
  cbn [get value page tracks effects].
  destruct H as [-> | ->]; [|destruct (SM.videoRef p)]; reflexivity.
Qed.

(** [C9, amended] captureFrame is a no-op when the preview video or the
    canvas is not in the document: nothing is appended, the angle index
    stays, nothing else changes and nothing is emitted.  That is the
    case on every rendered page whose capture marker is null (before a
    start, after a cancel, after a refused start). *)
Theorem captureFrame_unmounted_noop
  (r p : SM.Page) (f : SM.Frame) (ts : Tracks) :
  (SM.videoRef p = None \/ SM.canvasRef p = None ->
   SM.captureFrame r f p ts = mkResult tt p ts [])
  /\ (truthy_id (SM.capturing p) = false ->
      SM.captureFrame r f (SM.commit p) ts = mkResult tt (SM.commit p) ts []).
Proof.
  split; [apply captureFrame_guard|].
  intros Hidle. apply captureFrame_guard. left.
  unfold SM.commit. rewrite Hidle. reflexivity.
Qed.

Lemma captureFrame_unmounted_noop_witness :
  let f := {| SM.videoWidth := 640; SM.videoHeight := 480; SM.b64 := "QQ==" |} in
  SM.captureFrame SM.initial f SM.initial ∅ = mkResult tt SM.initial ∅ [].
Proof.
  intros f.
  destruct (captureFrame_unmounted_noop SM.initial SM.initial f ∅) as [H _].
  apply H. left. reflexivity.
Defined.

(** ** Deleting a student *)

(** [C10] When the operator declines the prompt, handleDelete makes no
    request and leaves the page as it was; the DELETE requests among the
    calls of handleDelete are the one for that student when the prompt
    was confirmed, and none when it was declined. *)
Theorem handleDelete_asks_first
  (id : Z) (resp : Outcome unit) (p : SM.Page) (ts : Tracks) :
  (let res := SM.handleDelete false id resp p ts in
   page res = p
   /\ tracks res = ts
   /\ effects res = [Confirm "Delete this student?"]
   /\ Forall (fun e => is_network e = false) (effects res))
  /\ (forall confirmed,
        delete_requests (effects (SM.handleDelete confirmed id resp p ts))
        = if confirmed then [StudentById id] else []).
Proof.
  split.
  - unfold SM.handleDelete, SM.handleDelete_begin. cbn [negb]. run_act.
    repeat split; auto.
  - intros confirmed.
    unfold SM.handleDelete, SM.handleDelete_begin, SM.handleDelete_then,
      SM.handleDelete_catch, SM.loadStudents.
    destruct confirmed, resp; reflexivity.
Qed.

(** ** The streaming loop: start and stop *)

(** [C4] startStreaming without an active session fails at once with the
    "Start a session first" toast and does nothing else: whatever the
    camera would have answered, no camera request and no socket is among
    its calls, and the page and the track store are as before. *)
Theorem startStreaming_needs_session
  (r p : Hub.Page) (ts : Tracks) (wsHost : string) (ws : nat)
  (resp : Outcome MediaStream) :
  Hub.session r = None ->
  let res := Hub.startStreaming r wsHost ws resp p ts in
  effects res = [Toast Error "Start a session first" None]
  /\ Forall (fun e => is_camera e = false /\ is_network e = false) (effects res)
  /\ page res = p
  /\ tracks res = ts.
Proof.
  intros Hnone. unfold Hub.startStreaming, Hub.startStreaming_begin.
  rewrite Hnone. run_act. repeat split; auto.
Qed.

Lemma startStreaming_needs_session_witness :
  let res := Hub.startStreaming Hub.initial "ws://localhost:5173" 1
               (Resolved {| getTracks := [1] |}) Hub.initial ∅ in
  effects res = [Toast Error "Start a session first" None]
  /\ page res = Hub.initial
  /\ tracks res = ∅.
Proof.
  destruct (startStreaming_needs_session Hub.initial Hub.initial ∅
              "ws://localhost:5173" 1 (Resolved {| getTracks := [1] |}) eq_refl)
    as (H1 & _ & H2 & H3).
  auto.
Defined.

Section StopStreaming.
Import Hub.

(** stopStreaming leaves nothing of the loop on the page, and keeps the
    rest of it. *)
Lemma stopStreaming_stops (p : Page) (ts : Tracks) :
  let res := stopStreaming p ts in
  stopped (page res)
  /\ session (page res) = session p
  /\ logs (page res) = logs p
  /\ summary (page res) = summary p
  /\ videoRef (page res) = videoRef p
  /\ canvasRef (page res) = canvasRef p
  /\ feedImgRef (page res) = feedImgRef p.
Proof.
  destruct p as [se lg sg sm vr cr [stream|] [ws|] fr [timer|]];
    unfold stopStreaming, stopped, mbind, Act_bind, act_bind, get;
    cbn [value page tracks effects]; hub_fields;
    try destruct (truthy_num timer) eqn:Htimer;
    unfold emit, modify, skip, mret, Act_ret, act_ret;
    cbn [value page tracks effects]; hub_fields;
    rewrite ?forEach_stopTrack;
    cbn [value page tracks effects truthy_id]; hub_fields;
    rewrite ?Htimer; auto 10.
Qed.

(** What stopStreaming calls, and what it does to the tracks. *)
Lemma stopStreaming_calls (p : Page) (ts : Tracks) :
  let res := stopStreaming p ts in
  effects res
  = match intervalRef p with
    | Some timer => if truthy_num timer then [ClearInterval timer] else []
    | None => []
    end
    ++ match wsRef p with Some ws => [WsClose ws] | None => [] end
  /\ tracks res
     = match streamRef p with
       | Some stream => foldl (fun m t => <[t := Ended]> m) ts (getTracks stream)
       | None => ts
       end.
Proof.
  destruct p as [se lg sg sm vr cr [stream|] [ws|] fr [timer|]];
    unfold stopStreaming, mbind, Act_bind, act_bind, get;
    cbn [value page tracks effects]; hub_fields;
    try destruct (truthy_num timer);
    unfold emit, modify, skip, mret, Act_ret, act_ret;
    cbn [value page tracks effects]; hub_fields;
    rewrite ?forEach_stopTrack;
    cbn [value page tracks effects app]; auto.
Qed.

(** On a page with nothing left to stop, stopStreaming does nothing. *)
Lemma stopStreaming_stopped (p : Page) (ts : Tracks) :
  stopped p -> stopStreaming p ts = mkResult tt p ts [].
Proof.
  intros (Htimer & Hws & Hstream & Hflag).
  destruct p as [se lg sg sm vr cr sr wr fr ir]; hub_fields; subst.
  unfold stopStreaming, mbind, Act_bind, act_bind, get.
  cbn [value page tracks effects]; hub_fields.
  destruct ir as [timer|]; cbn [truthy_id] in Htimer; rewrite ?Htimer;
    reflexivity.
Qed.

End StopStreaming.

(** [C5] stopStreaming is idempotent.  Its first run cancels the timer
    (when the handle is set), closes the socket (when there is one),
    stops every track of the held stream, and leaves the timer handle,
    the socket and the stream cleared and the streaming flag off;
    running it again then makes no call at all and returns the same page
    and the same track store. *)
Theorem stopStreaming_idempotent (p : Hub.Page) (ts : Tracks) :
  let once := Hub.stopStreaming p ts in
  (effects once
   = match Hub.intervalRef p with
     | Some timer => if truthy_num timer then [ClearInterval timer] else []
     | None => []
     end
     ++ match Hub.wsRef p with Some ws => [WsClose ws] | None => [] end
   /\ (forall stream t, Hub.streamRef p = Some stream -> t ∈ getTracks stream ->
         tracks once !! t = Some Ended)
   /\ Hub.stopped (page once))
  /\ Hub.stopStreaming (page once) (tracks once)
     = mkResult tt (page once) (tracks once) [].
Proof.
  cbn zeta. split; [split; [|split]|].
  - apply stopStreaming_calls.
  - intros stream t Hs Hin.
    destruct (stopStreaming_calls p ts) as [_ ->]. rewrite Hs, stopped_lookup.
    by case_decide.
  - apply stopStreaming_stops.
  - apply stopStreaming_stopped, stopStreaming_stops.
Qed.

(** ** The streaming loop: inbound messages *)

Section Inbound.
Import Hub.

(** Notifications leave the page and the tracks alone. *)
Lemma forEach_emit {A} (g : A -> Effect) (l : list A) :
  forall (p : Page) (ts : Tracks),
    forEach l (fun a => emit (g a)) p ts = mkResult tt p ts (map g l).
Proof.
  induction l as [|a l IH]; intros p ts; [reflexivity|].
  cbn [forEach map]. unfold mbind, Act_bind, act_bind.
  cbn [emit value page tracks effects]. rewrite IH. reflexivity.
Qed.

(** One message, with the feed image in the document. *)
Lemma ws_onmessage_feed (sess : Session) (event : WsData)
    (p : Page) (ts : Tracks) (img : HTMLImageElement) :
  feedImgRef p = Some img ->
  let res := ws_onmessage sess event p ts in
  feedImgRef (page res)
  = Some (match shown_frame event with
          | Some f => {| src := data_url f |}
          | None => img
          end)
  /\ tracks res = ts.
Proof.
  intros Himg. destruct p as [se lg sg sm vr cr sr wr fr ir].
  hub_fields. subst fr.
  destruct event as [|[[f|] dets]]; [done| |];
    unfold ws_onmessage, shown_frame, mbind, Act_bind, act_bind, get;
    cbn [frame detections value page tracks effects]; hub_fields;
    try destruct (truthy_str f);
    destruct dets as [dets|]; try destruct (0 <? length dets);
    unfold loadLogs, modify, skip, mret, Act_ret, act_ret;
    cbn [value page tracks effects emit]; hub_fields;
    rewrite ?forEach_emit; done.
Qed.

(** One message, with no feed image in the document: the frame is
    dropped. *)
Lemma ws_onmessage_no_feed (sess : Session) (event : WsData)
    (p : Page) (ts : Tracks) :
  feedImgRef p = None ->
  page (ws_onmessage sess event p ts) = p.
Proof.
  intros Himg. destruct p as [se lg sg sm vr cr sr wr fr ir].
  hub_fields. subst fr.
  destruct event as [|[[f|] dets]]; [done| |];
    unfold ws_onmessage, mbind, Act_bind, act_bind, get;
    cbn [frame detections value page tracks effects]; hub_fields;
    destruct dets as [dets|]; try destruct (0 <? length dets);
    unfold loadLogs, modify, skip, mret, Act_ret, act_ret;
    cbn [value page tracks effects emit]; hub_fields;
    rewrite ?forEach_emit; done.
Qed.

End Inbound.

(** A frame that is the empty string is not shown, and a frame that
    arrives after the socket has opened but before React has put the
    feed image in the document is dropped: in both runs below the
    display differs from the payload of the last message that carried a
    [frame] field. *)
Lemma displayed_frame_not_last_carried :
  let sess := {| Hub.session_id := 1; Hub.start_time := "2024-01-01T09:00:00";
                 Hub.session_status := "active" |} in
  let p0 := Hub.setSession (Some sess) Hub.initial in
  let started :=
    Hub.startStreaming p0 "ws://localhost:5173" 1 (Resolved {| getTracks := [1] |}) p0 ∅ in
  let opened := page (Hub.ws_onopen 1 (page started) (tracks started)) in
  let rendered := Hub.commit opened in
  let a := Hub.Parsed {| Hub.frame := Some "QQ=="; Hub.detections := None |} in
  let b := Hub.Parsed {| Hub.frame := Some ""; Hub.detections := None |} in
  (last (omap Hub.carried_frame [a; b]) = Some ""
   /\ Hub.displayed (page (Hub.messages sess [a; b] rendered ∅))
      = Some (Hub.data_url "QQ==")
   /\ Hub.displayed (page (Hub.messages sess [a; b] rendered ∅))
      <> Some (Hub.data_url ""))
  /\ (last (omap Hub.carried_frame [a]) = Some "QQ=="
      /\ Hub.displayed (page (Hub.messages sess [a] opened ∅)) = None
      /\ Hub.displayed (Hub.commit (page (Hub.messages sess [a] opened ∅)))
         = Some "").
Proof.
  cbn. repeat split; try reflexivity. discriminate.
Qed.

(** [C6, amended] While the feed image is in the document, after any
    finite sequence of inbound messages the image on display is the data
    URL of the payload of the last message whose [frame] is a non-empty
    string, however messages of other kinds are interleaved; if there
    was no such message the display is what it was. *)
Theorem displayed_frame_last_shown
  (sess : Hub.Session) (events : list Hub.WsData)
  (p : Hub.Page) (ts : Tracks) (img : Hub.HTMLImageElement) :
  Hub.feedImgRef p = Some img ->
  Hub.displayed (page (Hub.messages sess events p ts))
  = Some (match last (omap Hub.shown_frame events) with
          | Some f => Hub.data_url f
          | None => Hub.src img
          end).
Proof.
  revert p ts img. induction events as [|event events IH]; intros p ts img Himg.
  - unfold Hub.displayed. cbn. rewrite Himg. reflexivity.
  - pose proof (ws_onmessage_feed sess event p ts img Himg) as Hstep.
    cbn zeta in Hstep. unfold Hub.messages in *. cbn [forEach].
    unfold mbind, Act_bind, act_bind.
    destruct (Hub.ws_onmessage sess event p ts) as [[] p1 t1 e1].
    cbn [page tracks] in Hstep. destruct Hstep as [Hfeed ->].
    specialize (IH p1 ts _ Hfeed).
    destruct (forEach events (Hub.ws_onmessage sess) p1 ts) as [[] p2 t2 e2].
    cbn [page] in IH |- *. rewrite IH. f_equal.
    change (omap Hub.shown_frame (event :: events))
      with (match Hub.shown_frame event with
            | Some f => f :: omap Hub.shown_frame events
            | None => omap Hub.shown_frame events
            end).
    destruct (Hub.shown_frame event) as [f|]; [|reflexivity].
    rewrite last_cons. destruct (last (omap Hub.shown_frame events)); reflexivity.
Qed.

Lemma displayed_frame_last_shown_witness :
  let sess := {| Hub.session_id := 1; Hub.start_time := "2024-01-01T09:00:00";
                 Hub.session_status := "active" |} in
  let p := Hub.commit (page (Hub.ws_onopen 1 (Hub.setSession (Some sess) Hub.initial) ∅)) in
  let events :=
    [ Hub.Parsed {| Hub.frame := Some "QQ=="; Hub.detections := None |};
      Hub.Parsed {| Hub.frame := None;
                    Hub.detections := Some [ {| Hub.name := "Asha" |} ] |};
      Hub.Parsed {| Hub.frame := Some "Qg=="; Hub.detections := Some [] |};
      Hub.Unparsable;
      Hub.Parsed {| Hub.frame := None; Hub.detections := None |} ] in
  Hub.displayed (page (Hub.messages sess events p ∅))
  = Some "data:image/jpeg;base64,Qg==".
Proof.
  intros sess p events.
  exact (displayed_frame_last_shown sess events p ∅ {| Hub.src := "" |} eq_refl).
Defined.

(** ** Failed backend calls *)

(** stopSession stops the streaming loop before it posts to the backend:
    when the request then fails, the session is still active but the
    loop is gone, so the page is not what it was before the call. *)
Lemma stopSession_failure_stops_streaming :
  let sess := {| Hub.session_id := 1; Hub.start_time := "2024-01-01T09:00:00";
                 Hub.session_status := "active" |} in
  let p0 := Hub.setSession (Some sess) Hub.initial in
  let started :=
    Hub.startStreaming p0 "ws://localhost:5173" 1 (Resolved {| getTracks := [1] |}) p0 ∅ in
  let p := Hub.commit (page (Hub.ws_onopen 1 (page started) (tracks started))) in
  let res := Hub.stopSession (Rejected None) p (tracks started) in
  effects res = [ClearInterval 1; WsClose 1; ApiPost AttendanceStop NoBody;
                 Toast Error "Failed to stop session" None]
  /\ Hub.session (page res) = Some sess
  /\ Hub.streaming p = true /\ Hub.streaming (page res) = false
  /\ Hub.wsRef p = Some 1 /\ Hub.wsRef (page res) = None
  /\ page res <> p.
Proof.
  cbn. repeat split; try reflexivity. discriminate.
Qed.

(** [C7, amended] A manual override or a face submission whose backend
    call fails leaves the page exactly as it was.  A session stop whose
    backend call fails leaves the page as stopStreaming alone leaves it:
    session, logs and summary are unchanged, and the page is unchanged
    altogether when no streaming loop was running. *)
Theorem failed_call_keeps_view :
  (forall (r p : Hub.Page) (log : Hub.Log) (detail : option string) (ts : Tracks),
     page (Hub.toggleStatus r log (Rejected detail) p ts) = p)
  /\ (forall (r p : SM.Page) (detail : option string) (ts : Tracks),
        page (SM.submitFaces r (Rejected detail) p ts) = p)
  /\ (forall (p : Hub.Page) (detail : option string) (ts : Tracks),
        let res := Hub.stopSession (Rejected detail) p ts in
        page res = page (Hub.stopStreaming p ts)
        /\ Hub.stopped (page res)
        /\ Hub.session (page res) = Hub.session p
        /\ Hub.logs (page res) = Hub.logs p
        /\ Hub.summary (page res) = Hub.summary p
        /\ (Hub.stopped p -> page res = p)).
Proof.
  split; [|split].
  - intros r p log detail ts.
    unfold Hub.toggleStatus, Hub.toggleStatus_begin, Hub.toggleStatus_catch.
    destruct (Hub.session r); reflexivity.
  - intros r p detail ts.
    unfold SM.submitFaces, SM.submitFaces_begin, SM.submitFaces_catch.
    destruct (length (SM.capturedImages r) =? 0); reflexivity.
  - intros p detail ts.
    assert (Hpage : page (Hub.stopSession (Rejected detail) p ts)
                    = page (Hub.stopStreaming p ts)).
    { unfold Hub.stopSession, Hub.stopSession_begin, Hub.stopSession_catch.
      run_act. destruct (Hub.stopStreaming p ts); reflexivity. }
    cbn zeta. rewrite Hpage.
    destruct (stopStreaming_stops p ts) as (Hstop & Hs & Hl & Hm & _).
    split; [reflexivity|]. split; [exact Hstop|]. repeat split; auto.
    intros Hstopped. rewrite (stopStreaming_stopped p ts Hstopped). reflexivity.
Qed.

(** * Further properties of the two pages *)

(** ** Sequencing *)

Section Bind.
Context {P A B : Type}.

Lemma page_bind (m : Act P A) (f : A -> Act P B) (p : P) (ts : Tracks) :
  page ((m ≫= f) p ts)
  = page (f (value (m p ts)) (page (m p ts)) (tracks (m p ts))).
Proof.
  unfold mbind, Act_bind, act_bind.
  destruct (m p ts) as [a p1 t1 e1]. cbn [value page tracks].
  destruct (f a p1 t1); reflexivity.
Qed.

Lemma tracks_bind (m : Act P A) (f : A -> Act P B) (p : P) (ts : Tracks) :
  tracks ((m ≫= f) p ts)
  = tracks (f (value (m p ts)) (page (m p ts)) (tracks (m p ts))).
Proof.
  unfold mbind, Act_bind, act_bind.
  destruct (m p ts) as [a p1 t1 e1]. cbn [value page tracks].
  destruct (f a p1 t1); reflexivity.
Qed.

Lemma effects_bind (m : Act P A) (f : A -> Act P B) (p : P) (ts : Tracks) :
  effects ((m ≫= f) p ts)
  = effects (m p ts)
    ++ effects (f (value (m p ts)) (page (m p ts)) (tracks (m p ts))).
Proof.
  unfold mbind, Act_bind, act_bind.
  destruct (m p ts) as [a p1 t1 e1]. cbn [value page tracks effects].
  destruct (f a p1 t1); reflexivity.
Qed.

Lemma bind_assoc {C} (m : Act P A) (f : A -> Act P B) (g : B -> Act P C)
    (p : P) (ts : Tracks) :
  (m ≫= fun a => f a ≫= g) p ts = ((m ≫= f) ≫= g) p ts.
Proof.
  unfold mbind, Act_bind, act_bind.
  destruct (m p ts) as [a p1 t1 e1].
  destruct (f a p1 t1) as [b p2 t2 e2].
  destruct (g b p2 t2) as [c p3 t3 e3].
  by rewrite app_assoc.
Qed.

End Bind.

(** The tracks of a granted stream are live, the others as before. *)
Lemma acquired_lookup (l : list nat) (ts : Tracks) (t : nat) :
  foldr (fun t m => <[t := Live]> m) ts l !! t
  = if decide (t ∈ l) then Some Live else ts !! t.
Proof.
  induction l as [|a l IH]; cbn [foldr].
  - case_decide as H; [by apply elem_of_nil in H | done].
  - destruct (decide (a = t)) as [->|Hne].
    + rewrite lookup_insert_eq.
      destruct (decide (t ∈ t :: l)) as [_|H]; [reflexivity|].
      exfalso. apply H, list_elem_of_here.
    + rewrite lookup_insert_ne by done. rewrite IH.
      destruct (decide (t ∈ l)) as [Hl|Hl], (decide (t ∈ a :: l)) as [Hal|Hal];
        try reflexivity.
      * exfalso. apply Hal. by apply list_elem_of_further.
      * apply elem_of_cons in Hal as [->|Hin]; [done | contradiction].
Qed.

(** ** The capture loop, from start to end *)

Section CaptureSession.
Import SM.

Lemma startCapture_tracks
    (studentId : Z) (stream : MediaStream) (p : Page) (ts : Tracks) :
  tracks (startCapture studentId (Resolved stream) p ts)
  = foldr (fun t m => <[t := Live]> m) ts (getTracks stream).
Proof.
  unfold startCapture, startCapture_begin, startCapture_then, acquire.
  run_act. destruct (videoRef _); reflexivity.
Qed.

Lemma startCapture_page
    (studentId : Z) (stream : MediaStream) (p : Page) (ts : Tracks) :
  let res := startCapture studentId (Resolved stream) p ts in
  page res
  = {| students := students p; showForm := showForm p; form := form p;
       capturing := Some studentId; capturedImages := []; currentAngle := 0;
       videoRef := if truthy_num studentId
                   then Some {| srcObject := Some stream |} else None;
       canvasRef := if truthy_num studentId
                    then Some (default {| width := 300; height := 150 |}
                                 (canvasRef p))
                    else None;
       streamRef := Some stream |}
  /\ effects res = [GetUserMedia 640 480].
Proof.
  destruct p as [sts sf fm cap imgs ang vr cr sr].
  unfold startCapture, startCapture_begin, startCapture_then, acquire.
  run_act. unfold commit. sm_fields. cbn [truthy_id].
  destruct (truthy_num studentId) eqn:Hid; sm_fields; run_act; sm_fields;
    cbn [truthy_id]; rewrite ?Hid; sm_fields; split; reflexivity.
Qed.

Lemma clickCapture_run (f : Frame) (p : Page) (ts : Tracks) :
  capture_active p ->
  clickCapture f p ts
  = mkResult tt
      (setCurrentAngle (currentAngle p + 1)
         (setCapturedImages (capturedImages p ++ [b64 f])
            (set_canvasRef
               (Some {| width := videoWidth f; height := videoHeight f |}) p)))
      ts
      (if length CAPTURE_ANGLES <=? currentAngle p + 1
       then [Toast Success "All angles captured!" None] else []).
Proof.
  intros (Hid & [st Hst] & [v Hv] & [c Hc]).
  destruct p as [sts sf fm cap imgs ang vr cr sr]; sm_fields; subst.
  unfold clickCapture, captureFrame, commit. run_act. sm_fields.
  destruct (length CAPTURE_ANGLES <=? ang + 1); run_act; sm_fields;
    rewrite Hid; reflexivity.
Qed.

(** What a run of clicks emits, and what it leaves alone. *)
Lemma clicks_run (frames : list Frame) :
  forall (p : Page) (ts : Tracks),
    capture_active p ->
    let res := clicks frames p ts in
    effects res
    = flat_map (fun a => if length CAPTURE_ANGLES <=? a + 1
                         then [Toast Success "All angles captured!" None]
                         else [])
        (seq (currentAngle p) (length frames))
    /\ capturing (page res) = capturing p
    /\ students (page res) = students p
    /\ showForm (page res) = showForm p
    /\ form (page res) = form p.
Proof.
  induction frames as [|f frames IH]; intros p ts Hact; [by cbn|].
  pose proof (clickCapture_active f p ts Hact) as (_ & Ha & Hact' & _).
  unfold clicks in *. cbn [forEach length seq flat_map].
  rewrite effects_bind, !page_bind.
  rewrite (clickCapture_run f p ts Hact) in Ha, Hact' |- *.
  cbn [value page tracks effects] in *.
  destruct (IH _ ts Hact') as (He & Hc & Hs & Hf & Hm).
  rewrite He, Hc, Hs, Hf, Hm. sm_fields.
  replace (S (currentAngle p)) with (currentAngle p + 1) by lia.
  repeat split; reflexivity.
Qed.

Lemma submitFaces_resolved_run (r p : Page) (ts : Tracks) :
  capturedImages r <> [] ->
  let res := submitFaces r (Resolved tt) p ts in
  page res = page (stopCapture p ts)
  /\ tracks res = tracks (stopCapture p ts)
  /\ effects res
     = [ApiPost (StudentFace (capturing r)) (Images (capturedImages r));
        Toast Success "Face registered successfully!" None;
        ApiGet Students].
Proof.
  intros Hne. unfold submitFaces, submitFaces_begin, submitFaces_then, loadStudents.
  destruct (capturedImages r) as [|img imgs] eqn:Himgs; [done|].
  cbn [length Nat.eqb]. run_act. rewrite stopCapture_run.
  cbn [page tracks effects app]. repeat split; reflexivity.
Qed.

End CaptureSession.

(** [X1] A granted startCapture, from any page: the page holds the new
    stream, whose tracks are live; images and angle index of an earlier
    capture are discarded; the student is marked.  The modal, with the
    preview attached to the stream and the Capture button, is on display
    exactly when the student id is not 0, which [capturing && ...] takes
    for false. *)
Theorem startCapture_granted_enters_capture
  (studentId : Z) (stream : MediaStream) (p : SM.Page) (ts : Tracks) :
  let res := SM.startCapture studentId (Resolved stream) p ts in
  SM.capturing (page res) = Some studentId
  /\ SM.capturedImages (page res) = []
  /\ SM.currentAngle (page res) = 0
  /\ SM.streamRef (page res) = Some stream
  /\ (forall t, t ∈ getTracks stream -> tracks res !! t = Some Live)
  /\ SM.videoRef (page res)
     = (if truthy_num studentId
        then Some {| SM.srcObject := Some stream |} else None)
  /\ SM.capture_button (page res) = truthy_num studentId
  /\ effects res = [GetUserMedia 640 480].
Proof.
  destruct (startCapture_page studentId stream p ts) as [Hp He].
  cbn zeta. rewrite Hp, He, startCapture_tracks.
  unfold SM.capture_button. sm_fields. cbn [truthy_id].
  repeat split; try reflexivity.
  - intros t Hin. rewrite acquired_lookup. by case_decide.
  - by rewrite andb_true_r.
Qed.

(** [X2] From a fresh capture in progress, k clicks on Capture with k at
    most the number of angles show the "All angles captured!" toast
    once, on the click that takes the last angle, and nothing before. *)
Theorem all_angles_toast_on_last_click
  (p : SM.Page) (ts : Tracks) (frames : list SM.Frame) :
  SM.capture_active p ->
  SM.currentAngle p = 0 ->
  length frames <= length SM.CAPTURE_ANGLES ->
  effects (SM.clicks frames p ts)
  = if length frames =? length SM.CAPTURE_ANGLES
    then [Toast Success "All angles captured!" None] else [].
Proof.
  intros Hact Hang Hk.
  destruct (clicks_run frames p ts Hact) as (-> & _). rewrite Hang.
  change (length SM.CAPTURE_ANGLES) with 4 in *.
  destruct (length frames) as [|[|[|[|[|k]]]]]; try reflexivity. lia.
Qed.

Lemma all_angles_toast_on_last_click_witness :
  let p := SM.set_canvasRef (Some {| SM.width := 300; SM.height := 150 |})
             (SM.set_videoRef (Some {| SM.srcObject := Some {| getTracks := [1] |} |})
                (SM.set_streamRef (Some {| getTracks := [1] |})
                   (SM.setCapturing (Some 7%Z) SM.initial))) in
  let f := {| SM.videoWidth := 640; SM.videoHeight := 480; SM.b64 := "QQ==" |} in
  effects (SM.clicks [f; f; f] p ∅) = []
  /\ effects (SM.clicks [f; f; f; f] p ∅)
     = [Toast Success "All angles captured!" None].
Proof.
  intros p f.
  assert (Hact : SM.capture_active p).
  { unfold SM.capture_active, p. sm_fields. repeat split; eauto. }
  split.
  - apply (all_angles_toast_on_last_click p ∅ [f; f; f] Hact eq_refl).
    cbn. lia.
  - apply (all_angles_toast_on_last_click p ∅ [f; f; f; f] Hact eq_refl).
    cbn. lia.
Defined.

(** [X3] What the modal shows after k clicks (k at most the number of
    angles) from a fresh capture in progress: k green progress steps,
    then the pulsing step of the angle to take and idle steps after it;
    the prompt names angle k of the list, or says that all are
    captured; the Capture button is there while k is below the number
    of angles, and the Save button, showing the count k, as soon as k is
    not 0. *)
Theorem capture_modal_after_clicks
  (p : SM.Page) (ts : Tracks) (frames : list SM.Frame) :
  SM.capture_active p ->
  SM.capturedImages p = [] ->
  SM.currentAngle p = 0 ->
  length frames <= length SM.CAPTURE_ANGLES ->
  let r := page (SM.clicks frames p ts) in
  let k := length frames in
  SM.progressSteps r
  = replicate k "bg-emerald-500"
    ++ (if k <? length SM.CAPTURE_ANGLES
        then "bg-primary-500 animate-pulse"
             :: replicate (length SM.CAPTURE_ANGLES - 1 - k) "bg-white/10"
        else [])
  /\ SM.prompt r
     = match SM.CAPTURE_ANGLES !! k with
       | Some angle => SM.LookAt (Some angle)
       | None => SM.AllCaptured
       end
  /\ SM.capture_button r = (k <? length SM.CAPTURE_ANGLES)
  /\ SM.save_button r = if k =? 0 then None else Some k.
Proof.
  intros Hact Himgs Hang Hk.
  destruct (clicks_active frames p ts Hact) as (Hi & Ha & (Hid & _) & _).
  cbn zeta.
  unfold SM.progressSteps, SM.stepClass, SM.prompt, SM.capture_button,
    SM.save_button.
  rewrite Hi, Ha, Hid, Himgs, Hang. cbn [app]. rewrite length_map.
  change (length SM.CAPTURE_ANGLES) with 4 in *.
  destruct (length frames) as [|[|[|[|[|k]]]]]; try (repeat split; reflexivity).
  lia.
Qed.

Lemma capture_modal_after_clicks_witness :
  let p := SM.set_canvasRef (Some {| SM.width := 300; SM.height := 150 |})
             (SM.set_videoRef (Some {| SM.srcObject := Some {| getTracks := [1] |} |})
                (SM.set_streamRef (Some {| getTracks := [1] |})
                   (SM.setCapturing (Some 7%Z) SM.initial))) in
  let f := {| SM.videoWidth := 640; SM.videoHeight := 480; SM.b64 := "QQ==" |} in
  SM.progressSteps (page (SM.clicks [f; f] p ∅))
  = ["bg-emerald-500"; "bg-emerald-500"; "bg-primary-500 animate-pulse";
     "bg-white/10"]
  /\ SM.prompt (page (SM.clicks [f; f] p ∅)) = SM.LookAt (Some "Right").
Proof.
  intros p f.
  assert (Hact : SM.capture_active p).
  { unfold SM.capture_active, p. sm_fields. repeat split; eauto. }
  destruct (capture_modal_after_clicks p ∅ [f; f] Hact eq_refl eq_refl)
    as (H1 & H2 & _).
  - cbn. lia.
  - split; [exact H1 | exact H2].
Defined.

Section CaptureCycle.
Import SM.

(** The page between two captures, with the table and the form of [p]. *)
Lemma clickCancel_run (p : Page) (ts : Tracks) :
  clickCancel p ts
  = mkResult tt
      {| students := students p; showForm := showForm p; form := form p;
         capturing := None; capturedImages := []; currentAngle := 0;
         videoRef := None; canvasRef := None; streamRef := None |}
      (tracks (stopCapture p ts)) [].
Proof.
  unfold clickCancel. run_act. rewrite stopCapture_run.
  cbn [page tracks effects app]. unfold commit. sm_fields. reflexivity.
Qed.

Lemma clickSave_resolved_run (p : Page) (ts : Tracks) :
  capturedImages p <> [] ->
  clickSave (Resolved tt) p ts
  = mkResult tt
      {| students := students p; showForm := showForm p; form := form p;
         capturing := None; capturedImages := []; currentAngle := 0;
         videoRef := None; canvasRef := None; streamRef := None |}
      (tracks (stopCapture p ts))
      [ApiPost (StudentFace (capturing p)) (Images (capturedImages p));
       Toast Success "Face registered successfully!" None;
       ApiGet Students].
Proof.
  intros Hne.
  pose proof (submitFaces_resolved_run p p ts Hne) as Hrun. cbn zeta in Hrun.
  unfold clickSave. run_act.
  destruct (submitFaces p (Resolved tt) p ts) as [[] p1 t1 e1].
  cbn [page tracks effects] in Hrun. destruct Hrun as (-> & -> & ->).
  rewrite stopCapture_run. cbn [page tracks]. unfold commit. sm_fields.
  rewrite app_nil_r. reflexivity.
Qed.

(** A granted start on a free camera, then clicks: the page is in a
    capture, holds the camera, and has the images in order. *)
Lemma capture_started
    (studentId : Z) (stream : MediaStream) (frames : list Frame)
    (p : Page) (ts : Tracks) :
  truthy_num studentId = true ->
  camera_released ts ->
  let res := (startCapture studentId (Resolved stream) ;; clicks frames) p ts in
  capture_active (page res)
  /\ holds_camera (page res) (tracks res)
  /\ capturing (page res) = Some studentId
  /\ capturedImages (page res) = map b64 frames
  /\ currentAngle (page res) = length frames
  /\ students (page res) = students p
  /\ showForm (page res) = showForm p
  /\ form (page res) = form p
  /\ effects res
     = GetUserMedia 640 480
       :: flat_map (fun a => if length CAPTURE_ANGLES <=? a + 1
                             then [Toast Success "All angles captured!" None]
                             else [])
            (seq 0 (length frames)).
Proof.
  intros Hid Hfree.
  destruct (startCapture_page studentId stream p ts) as [Hp He].
  destruct (startCapture_holds_camera studentId stream p ts Hfree) as [_ Hown].
  cbn zeta in Hp, Hown |- *.
  rewrite page_bind, tracks_bind, effects_bind. cbv beta.
  set (started := startCapture studentId (Resolved stream) p ts) in *.
  assert (Hact : capture_active (page started)).
  { rewrite Hp. unfold capture_active. sm_fields. cbn [truthy_id].
    rewrite Hid. repeat split; eauto. }
  destruct (clicks_active frames (page started) (tracks started) Hact)
    as (Hi & Ha & Hact' & Hs & Ht).
  destruct (clicks_run frames (page started) (tracks started) Hact)
    as (Hes & Hc & Hst & Hsf & Hfm).
  pose proof (clicks_hold_camera frames _ _ Hact Hown) as Hown'.
  cbn zeta in Hown'.
  split; [exact Hact'|]. split; [exact Hown'|].
  rewrite Hi, Ha, Hes, Hc, Hst, Hsf, Hfm, He, Hp. sm_fields.
  repeat split; reflexivity.
Qed.

End CaptureCycle.

(** [X4] A capture that is started (camera granted, student id not 0,
    camera free before), used for any number of clicks and then
    cancelled leaves no track live and the page without a capture,
    without images, at angle 0, without stream and preview, the student
    table and the form as before; nothing was sent to the backend. *)
Theorem capture_cancel_cycle
  (studentId : Z) (stream : MediaStream) (frames : list SM.Frame)
  (p : SM.Page) (ts : Tracks) :
  truthy_num studentId = true ->
  camera_released ts ->
  let res := (SM.startCapture studentId (Resolved stream) ;;
              SM.clicks frames ;; SM.clickCancel) p ts in
  camera_released (tracks res)
  /\ page res
     = {| SM.students := SM.students p; SM.showForm := SM.showForm p;
          SM.form := SM.form p; SM.capturing := None;
          SM.capturedImages := []; SM.currentAngle := 0;
          SM.videoRef := None; SM.canvasRef := None; SM.streamRef := None |}
  /\ Forall (fun e => is_network e = false) (effects res).
Proof.
  intros Hid Hfree.
  pose proof (capture_started studentId stream frames p ts Hid Hfree) as Hrun.
  cbn zeta in Hrun |- *. rewrite bind_assoc.
  rewrite page_bind, tracks_bind, effects_bind. cbv beta.
  set (run := (SM.startCapture studentId (Resolved stream) ;; SM.clicks frames) p ts) in *.
  destruct Hrun as (_ & Hown & _ & _ & _ & Hst & Hsf & Hfm & He).
  rewrite clickCancel_run. cbn [page tracks effects].
  rewrite Hst, Hsf, Hfm, He, app_nil_r.
  split; [|split; [reflexivity|]].
  - by apply stopCapture_releases.
  - constructor; [reflexivity|]. apply Forall_flat_map, Forall_forall.
    intros a _. destruct (_ <=? _); repeat constructor.
Qed.

Lemma capture_cancel_cycle_witness :
  let f := {| SM.videoWidth := 640; SM.videoHeight := 480; SM.b64 := "QQ==" |} in
  let res := (SM.startCapture 7 (Resolved {| getTracks := [1] |}) ;;
              SM.clicks [f; f] ;; SM.clickCancel) SM.initial ∅ in
  camera_released (tracks res) /\ page res = SM.initial.
Proof.
  intros f.
  destruct (capture_cancel_cycle 7 {| getTracks := [1] |} [f; f] SM.initial ∅
              eq_refl) as (H1 & H2 & _).
  - intros t. by rewrite lookup_empty.
  - split; [exact H1 | exact H2].
Defined.

(** [X5] A capture that is started for a student (camera granted, id
    not 0, camera free before), used for k clicks with k between 1 and
    the number of angles, and saved with the backend accepting: one POST
    goes to /students/{id}/face of that student, carrying the k images
    in the order they were taken; then the success toast and a reload of
    the student list follow; afterwards no track is live and the page
    shows no capture. *)
Theorem capture_submit_cycle
  (studentId : Z) (stream : MediaStream) (frames : list SM.Frame)
  (p : SM.Page) (ts : Tracks) :
  truthy_num studentId = true ->
  camera_released ts ->
  frames <> [] ->
  length frames <= length SM.CAPTURE_ANGLES ->
  let res := (SM.startCapture studentId (Resolved stream) ;;
              SM.clicks frames ;; SM.clickSave (Resolved tt)) p ts in
  effects res
  = GetUserMedia 640 480
    :: (if length frames =? length SM.CAPTURE_ANGLES
        then [Toast Success "All angles captured!" None] else [])
    ++ [ApiPost (StudentFace (Some studentId)) (Images (map SM.b64 frames));
        Toast Success "Face registered successfully!" None;
        ApiGet Students]
  /\ camera_released (tracks res)
  /\ page res
     = {| SM.students := SM.students p; SM.showForm := SM.showForm p;
          SM.form := SM.form p; SM.capturing := None;
          SM.capturedImages := []; SM.currentAngle := 0;
          SM.videoRef := None; SM.canvasRef := None; SM.streamRef := None |}.
Proof.
  intros Hid Hfree Hne Hk.
  pose proof (capture_started studentId stream frames p ts Hid Hfree) as Hrun.
  cbn zeta in Hrun |- *. rewrite bind_assoc.
  rewrite page_bind, tracks_bind, effects_bind. cbv beta.
  set (run := (SM.startCapture studentId (Resolved stream) ;; SM.clicks frames) p ts) in *.
  destruct Hrun as (_ & Hown & Hc & Hi & _ & Hst & Hsf & Hfm & He).
  rewrite clickSave_resolved_run
    by (rewrite Hi; destruct frames; [done | discriminate]).
  cbn [page tracks effects]. rewrite Hc, Hi, Hst, Hsf, Hfm, He.
  split; [|split; [by apply stopCapture_releases | reflexivity]].
  cbn [app]. do 2 f_equal.
  change (length SM.CAPTURE_ANGLES) with 4 in *.
  destruct (length frames) as [|[|[|[|[|k]]]]]; try reflexivity. lia.
Qed.

Lemma capture_submit_cycle_witness :
  let a := {| SM.videoWidth := 640; SM.videoHeight := 480; SM.b64 := "QQ==" |} in
  let b := {| SM.videoWidth := 640; SM.videoHeight := 480; SM.b64 := "Qg==" |} in
  effects ((SM.startCapture 7 (Resolved {| getTracks := [1] |}) ;;
            SM.clicks [a; b] ;; SM.clickSave (Resolved tt)) SM.initial ∅)
  = [GetUserMedia 640 480;
     ApiPost (StudentFace (Some 7%Z)) (Images ["QQ=="; "Qg=="]);
     Toast Success "Face registered successfully!" None;
     ApiGet Students].
Proof.
  intros a b.
  destruct (capture_submit_cycle 7 {| getTracks := [1] |} [a; b] SM.initial ∅
              eq_refl) as (H & _).
  - intros t. by rewrite lookup_empty.
  - discriminate.
  - cbn. lia.
  - exact H.
Defined.

(** [X6] A save that the backend rejects can be repeated: the page keeps
    the capture, so a second click on Save sends the same request (same
    student, same images) again.  The rejection shows the detail of the
    backend, or "Face registration failed" when there is none. *)
Theorem submit_retry_resends
  (p : SM.Page) (ts : Tracks) (detail : option string) :
  SM.capture_active p ->
  SM.capturedImages p <> [] ->
  let request :=
    ApiPost (StudentFace (SM.capturing p)) (Images (SM.capturedImages p)) in
  let res := (SM.clickSave (Rejected detail) ;; SM.clickSave (Resolved tt)) p ts in
  page (SM.clickSave (Rejected detail) p ts) = p
  /\ effects res
     = [request;
        Toast Error (js_or detail "Face registration failed") None;
        request;
        Toast Success "Face registered successfully!" None;
        ApiGet Students].
Proof.
  intros (Hid & _ & [v Hv] & [c Hc]) Hne.
  assert (Hfail : SM.clickSave (Rejected detail) p ts
                  = mkResult tt p ts
                      [ApiPost (StudentFace (SM.capturing p))
                         (Images (SM.capturedImages p));
                       Toast Error (js_or detail "Face registration failed") None]).
  { unfold SM.clickSave, SM.submitFaces, SM.submitFaces_begin,
      SM.submitFaces_catch.
    assert (Hlen : (length (SM.capturedImages p) =? 0) = false)
      by (destruct (SM.capturedImages p); [done | reflexivity]).
    run_act. rewrite Hlen. cbn [app]. unfold SM.commit. rewrite Hid.
    destruct p as [sts sf fm cap imgs ang vr cr sr]; sm_fields; subst.
    reflexivity. }
  cbn zeta. rewrite effects_bind, Hfail. cbn [value page tracks effects].
  split; [reflexivity|].
  rewrite clickSave_resolved_run by exact Hne. reflexivity.
Qed.

Lemma submit_retry_resends_witness :
  let p := SM.setCapturedImages ["QQ=="]
             (SM.set_canvasRef (Some {| SM.width := 640; SM.height := 480 |})
                (SM.set_videoRef (Some {| SM.srcObject := Some {| getTracks := [1] |} |})
                   (SM.set_streamRef (Some {| getTracks := [1] |})
                      (SM.setCapturing (Some 7%Z) SM.initial)))) in
  page (SM.clickSave (Rejected (Some "No face found")) p ∅) = p.
Proof.
  intros p.
  assert (Hact : SM.capture_active p).
  { unfold SM.capture_active, p. sm_fields. repeat split; eauto. }
  destruct (submit_retry_resends p ∅ (Some "No face found") Hact) as [H _].
  - discriminate.
  - exact H.
Defined.

(** [X7] startCapture does not stop a stream the page already holds: a
    live track that is not one of the newly granted stream, such as a
    track of the stream held before, is still live after the start and
    the cancel that follows, while the page has no stream handle left. *)
Theorem startCapture_leaves_held_stream_live
  (studentId : Z) (old new : MediaStream) (p : SM.Page) (ts : Tracks) (t : nat) :
  SM.streamRef p = Some old ->
  t ∈ getTracks old ->
  t ∉ getTracks new ->
  ts !! t = Some Live ->
  let res := (SM.startCapture studentId (Resolved new) ;; SM.clickCancel) p ts in
  tracks res !! t = Some Live
  /\ SM.streamRef (page res) = None.
Proof.
  intros _ _ Hnew Hlive. cbn zeta.
  rewrite page_bind, tracks_bind. cbv beta.
  destruct (startCapture_page studentId new p ts) as [Hp _]. cbn zeta in Hp.
  rewrite !clickCancel_run. cbn [page tracks]. sm_fields.
  split; [|reflexivity].
  rewrite stopCapture_run. cbn [tracks]. rewrite Hp. sm_fields.
  rewrite startCapture_tracks, stopped_lookup, acquired_lookup.
  by repeat case_decide.
Qed.

Lemma startCapture_leaves_held_stream_live_witness :
  let p := SM.set_streamRef (Some {| getTracks := [1] |}) SM.initial in
  let res := (SM.startCapture 7 (Resolved {| getTracks := [2] |}) ;;
              SM.clickCancel) p {[ 1 := Live ]} in
  tracks res !! 1 = Some Live /\ SM.streamRef (page res) = None.
Proof.
  intros p.
  apply (startCapture_leaves_held_stream_live 7 {| getTracks := [1] |}
           {| getTracks := [2] |} p {[ 1 := Live ]} 1 eq_refl).
  - apply list_elem_of_here.
  - intros Hin. apply elem_of_cons in Hin as [Heq | Hin];
      [discriminate | by apply elem_of_nil in Hin].
  - apply lookup_singleton_eq.
Defined.

(** [X8] handleDelete never changes the page itself, whatever the
    operator and the backend answer; the student list is reloaded
    (GET /students/) exactly when the prompt was confirmed and the
    DELETE succeeded, after the "Student deleted" toast, and a rejected
    DELETE shows "Failed to delete" and nothing else. *)
Theorem handleDelete_outcomes
  (confirmed : bool) (id : Z) (resp : Outcome unit) (p : SM.Page) (ts : Tracks) :
  let res := SM.handleDelete confirmed id resp p ts in
  page res = p
  /\ tracks res = ts
  /\ effects res
     = Confirm "Delete this student?"
       :: (if confirmed
           then ApiDelete (StudentById id)
                :: match resp with
                   | Resolved _ => [Toast Success "Student deleted" None;
                                    ApiGet Students]
                   | Rejected _ => [Toast Error "Failed to delete" None]
                   end
           else []).
Proof.
  unfold SM.handleDelete, SM.handleDelete_begin, SM.handleDelete_then,
    SM.handleDelete_catch, SM.loadStudents.
  destruct confirmed, resp; cbn [negb]; run_act; repeat split; reflexivity.
Qed.

(** ** The attendance hub: roll call and session controls *)

Section RollCall.
Import Hub.

Lemma count_present_absent (l : list Log) :
  length (List.filter (fun l => String.eqb (status l) "present") l)
  + length (List.filter (fun l => String.eqb (status l) "absent") l)
  <= length l
  /\ (length (List.filter (fun l => String.eqb (status l) "present") l)
      + length (List.filter (fun l => String.eqb (status l) "absent") l)
      = length l
      <-> Forall (fun l => status l = "present" \/ status l = "absent") l).
Proof.
  induction l as [|x l [IHle IHeq]]; cbn [List.filter length].
  - split; [lia|]. split; [constructor | reflexivity].
  - destruct (String.eqb_spec (status x) "present") as [Hp|Hp];
      destruct (String.eqb_spec (status x) "absent") as [Ha|Ha];
      cbn [length]; try congruence.
    + split; [lia|]. rewrite Forall_cons. split.
      * intros H. split; [auto|]. apply IHeq. lia.
      * intros [_ H]. apply IHeq in H. lia.
    + split; [lia|]. rewrite Forall_cons. split.
      * intros H. split; [auto|]. apply IHeq. lia.
      * intros [_ H]. apply IHeq in H. lia.
    + split; [lia|]. rewrite Forall_cons. split.
      * intros H. lia.
      * intros [[H|H] _]; contradiction.
Qed.

Lemma find_at_first {X} (f : X -> bool) (before after : list X) (x : X) :
  Forall (fun y => f y = false) before ->
  f x = true ->
  List.find f (before ++ x :: after) = Some x.
Proof.
  induction 1 as [|y before Hy _ IH]; intros Hx; cbn [app List.find].
  - by rewrite Hx.
  - rewrite Hy. by apply IH.
Qed.

Lemma find_none_of {X} (f : X -> bool) (l : list X) :
  Forall (fun y => f y = false) l -> List.find f l = None.
Proof.
  induction 1 as [|y l Hy _ IH]; cbn [List.find]; [reflexivity|].
  by rewrite Hy.
Qed.

End RollCall.

(** [X9] The two counters of the session banner never add up to more
    than the roll call, and add up to exactly its length precisely when
    every log is either "present" or "absent". *)
Theorem roll_call_counts (r : Hub.Page) :
  Hub.presentCount r + Hub.absentCount r <= length (Hub.logs r)
  /\ (Hub.presentCount r + Hub.absentCount r = length (Hub.logs r)
      <-> Forall (fun l => Hub.status l = "present" \/ Hub.status l = "absent")
            (Hub.logs r)).
Proof.
  unfold Hub.presentCount, Hub.absentCount. apply count_present_absent.
Qed.

(** [X10] A manual override with a session: the request asks, for that
    session and that student, the status the student does not have,
    which is also what the label of the button says; when the backend
    accepts, the roll call of that session is fetched again and the
    toast names student and new status, and the page itself is not
    touched (no optimistic update).  Without a session the row has no
    button, and the handler would fail locally without a request. *)
Theorem toggleStatus_asks_opposite
  (r p : Hub.Page) (log : Hub.Log) (ts : Tracks) :
  (forall sess, Hub.session r = Some sess ->
     let res := Hub.toggleStatus r log (Resolved tt) p ts in
     page res = p
     /\ effects res
        = [ApiPost AttendanceOverride
             (Override (Hub.session_id sess) (Hub.student_id log)
                (Hub.newStatus log));
           ApiGet (SessionLogs (Hub.session_id sess));
           Toast Success
             (Hub.student_name log +:+ " marked " +:+ Hub.newStatus log) None]
     /\ Hub.newStatus log <> Hub.status log
     /\ (Hub.newStatus log = "absent" <-> Hub.status log = "present")
     /\ (Hub.newStatus log = "present" <-> Hub.status log <> "present")
     /\ Hub.override_button r log
        = Some (if String.eqb (Hub.newStatus log) "absent"
                then "Mark Absent" else "Mark Present"))
  /\ (Hub.session r = None ->
      forall resp,
        let res := Hub.toggleStatus r log resp p ts in
        page res = p
        /\ effects res = [Toast Error "Override failed" None]
        /\ Hub.override_button r log = None).
Proof.
  split.
  - intros sess Hs. cbn zeta.
    unfold Hub.toggleStatus, Hub.toggleStatus_begin, Hub.toggleStatus_then,
      Hub.override_button, Hub.loadLogs, Hub.newStatus.
    rewrite Hs. run_act.
    destruct (String.eqb_spec (Hub.status log) "present") as [He|Hne].
    + rewrite He. repeat split; try reflexivity; try discriminate; congruence.
    + repeat split; try reflexivity; try discriminate; try congruence.
  - intros Hs resp. cbn zeta.
    unfold Hub.toggleStatus, Hub.toggleStatus_begin, Hub.override_button.
    rewrite Hs. run_act. repeat split; reflexivity.
Qed.

Lemma toggleStatus_asks_opposite_witness :
  let sess := {| Hub.session_id := 4; Hub.start_time := "2024-01-01T09:00:00";
                 Hub.session_status := "active" |} in
  let r := Hub.setSession (Some sess) Hub.initial in
  let log := {| Hub.log_id := 11; Hub.student_id := 7;
                Hub.student_name := "Asha"; Hub.roll_number := "CS-07";
                Hub.status := "present" |} in
  effects (Hub.toggleStatus r log (Resolved tt) r ∅)
  = [ApiPost AttendanceOverride (Override 4 7 "absent");
     ApiGet (SessionLogs 4);
     Toast Success "Asha marked absent" None].
Proof.
  intros sess r log.
  destruct (toggleStatus_asks_opposite r r log ∅) as [H _].
  destruct (H sess eq_refl) as (_ & He & _). exact He.
Defined.

(** [X11] checkActiveSession, run when the page mounts: when the list of
    sessions arrives, the page takes the first session of the list whose
    status is "active" (the sessions before it are not active, whatever
    comes after) and asks for the logs of that session; when no session
    of the list is active, or when the request fails, the page is left
    exactly as it was and nothing is shown to the user. *)
Theorem checkActiveSession_takes_first_active (p : Hub.Page) (ts : Tracks) :
  (forall before s after,
     Forall (fun s' => Hub.session_status s' <> "active") before ->
     Hub.session_status s = "active" ->
     let res := Hub.checkActiveSession (Resolved (before ++ s :: after)) p ts in
     page res = Hub.setSession (Some s) p
     /\ effects res = [ApiGet AttendanceSessions;
                       ApiGet (SessionLogs (Hub.session_id s))])
  /\ (forall data,
        Forall (fun s' => Hub.session_status s' <> "active") data ->
        let res := Hub.checkActiveSession (Resolved data) p ts in
        page res = p /\ effects res = [ApiGet AttendanceSessions])
  /\ (forall detail,
        let res := Hub.checkActiveSession (Rejected detail) p ts in
        page res = p /\ effects res = [ApiGet AttendanceSessions]).
Proof.
  assert (Hneq : forall l : list Hub.Session,
             Forall (fun s' => Hub.session_status s' <> "active") l ->
             Forall (fun s' => String.eqb (Hub.session_status s') "active" = false) l).
  { intros l H. eapply Forall_impl; [exact H|]. cbn. intros s' Hs'.
    by apply String.eqb_neq. }
  split; [|split].
  - intros before s after Hbefore Hs. cbn zeta.
    unfold Hub.checkActiveSession, Hub.checkActiveSession_begin,
      Hub.checkActiveSession_then, Hub.loadLogs.
    rewrite (find_at_first _ before after s (Hneq _ Hbefore))
      by (by apply String.eqb_eq).
    run_act. split; reflexivity.
  - intros data Hdata. cbn zeta.
    unfold Hub.checkActiveSession, Hub.checkActiveSession_begin,
      Hub.checkActiveSession_then.
    rewrite (find_none_of _ data (Hneq _ Hdata)). run_act. split; reflexivity.
  - intros detail. split; reflexivity.
Qed.

Lemma checkActiveSession_takes_first_active_witness :
  let ended := {| Hub.session_id := 3; Hub.start_time := "2024-01-01T09:00:00";
                  Hub.session_status := "ended" |} in
  let active := {| Hub.session_id := 4; Hub.start_time := "2024-01-02T09:00:00";
                   Hub.session_status := "active" |} in
  let later := {| Hub.session_id := 5; Hub.start_time := "2024-01-03T09:00:00";
                  Hub.session_status := "active" |} in
  Hub.session (page (Hub.checkActiveSession (Resolved [ended; active; later])
                       Hub.initial ∅))
  = Some active.
Proof.
  intros ended active later.
  destruct (checkActiveSession_takes_first_active Hub.initial ∅) as [H _].
  destruct (H [ended] active [later]) as [Hp _].
  - constructor; [discriminate | constructor].
  - reflexivity.
  - cbn [app] in Hp. rewrite Hp. reflexivity.
Defined.

(** ** The attendance hub: the streaming loop from start to stop *)

Section StreamingLoop.
Import Hub.

Lemma stopStreaming_run (p : Page) (ts : Tracks) :
  stopStreaming p ts
  = mkResult tt
      {| session := session p; logs := logs p; streaming := false;
         summary := summary p; videoRef := videoRef p;
         canvasRef := canvasRef p; streamRef := None; wsRef := None;
         feedImgRef := feedImgRef p;
         intervalRef := match intervalRef p with
                        | Some timer => if truthy_num timer then None else Some timer
                        | None => None
                        end |}
      (match streamRef p with
       | Some stream => foldl (fun m t => <[t := Ended]> m) ts (getTracks stream)
       | None => ts
       end)
      (match intervalRef p with
       | Some timer => if truthy_num timer then [ClearInterval timer] else []
       | None => []
       end
       ++ match wsRef p with Some ws => [WsClose ws] | None => [] end).
Proof.
  destruct p as [se lg sg sm vr cr [stream|] [ws|] fr [timer|]];
    unfold stopStreaming, mbind, Act_bind, act_bind, get;
    cbn [value page tracks effects]; hub_fields;
    try destruct (truthy_num timer);
    unfold emit, modify, skip, mret, Act_ret, act_ret;
    cbn [value page tracks effects]; hub_fields;
    rewrite ?forEach_stopTrack;
    cbn [value page tracks effects app]; reflexivity.
Qed.

Lemma ws_onmessage_run (sess : Session) (event : WsData)
    (p : Page) (ts : Tracks) :
  ws_onmessage sess event p ts
  = mkResult tt
      (set_feedImgRef
         (match shown_frame event, feedImgRef p with
          | Some f, Some _ => Some {| src := data_url f |}
          | _, img => img
          end) p)
      ts (notifications sess event).
Proof.
  destruct p as [se lg sg sm vr cr sr wr fr ir].
  destruct event as [|[[f|] dets]]; [reflexivity| |];
    unfold ws_onmessage, shown_frame, notifications, mbind, Act_bind, act_bind, get;
    cbn [frame detections value page tracks effects]; hub_fields;
    try destruct (truthy_str f); try destruct fr as [img|];
    destruct dets as [[|det dets]|]; cbn [length Nat.ltb Nat.leb];
    unfold loadLogs, modify, skip, mret, Act_ret, act_ret;
    cbn [value page tracks effects emit]; hub_fields;
    rewrite ?forEach_emit; reflexivity.
Qed.

Lemma messages_run (sess : Session) (events : list WsData) :
  forall (p : Page) (ts : Tracks),
    let res := messages sess events p ts in
    page res = set_feedImgRef (feedImgRef (page res)) p
    /\ tracks res = ts
    /\ effects res = flat_map (notifications sess) events.
Proof.
  induction events as [|event events IH]; intros p ts.
  - destruct p; repeat split; reflexivity.
  - unfold messages in *. cbn [forEach flat_map].
    rewrite page_bind, tracks_bind, effects_bind, ws_onmessage_run.
    cbn [value page tracks effects].
    destruct (IH (set_feedImgRef
                    (match shown_frame event, feedImgRef p with
                     | Some f, Some _ => Some {| src := data_url f |}
                     | _, img => img
                     end) p) ts) as (Hp & Ht & He).
    rewrite Ht, He. split; [|split; reflexivity].
    rewrite Hp at 1. reflexivity.
Qed.

End StreamingLoop.

(** [X12] A sequence of inbound messages changes nothing on the page but
    the feed image, and nothing of the camera tracks; it shows one toast
    per detection, in the order received, and asks for the roll call of
    the session once after the toasts of each message that has at least
    one detection; messages without detections, with an empty list of
    them, or that do not parse cause no call. *)
Theorem messages_touch_feed_only
  (sess : Hub.Session) (events : list Hub.WsData) (p : Hub.Page) (ts : Tracks) :
  let res := Hub.messages sess events p ts in
  page res = Hub.set_feedImgRef (Hub.feedImgRef (page res)) p
  /\ tracks res = ts
  /\ effects res = flat_map (Hub.notifications sess) events
  /\ length (List.filter is_network (effects res))
     = length (List.filter
                 (fun event =>
                    match event with
                    | Hub.Parsed {| Hub.detections := Some (_ :: _) |} => true
                    | _ => false
                    end) events).
Proof.
  destruct (messages_run sess events p ts) as (Hp & Ht & He).
  cbn zeta. rewrite He. repeat split; try assumption.
  clear. induction events as [|event events IH]; [reflexivity|].
  cbn [flat_map List.filter]. rewrite List.filter_app, length_app, IH.
  destruct event as [|[f [[|det dets]|]]]; cbn [Hub.notifications Hub.detections];
    try reflexivity.
  rewrite List.filter_app, length_app. cbn [List.filter is_network length].
  assert (Hnone : forall l : list Hub.Detection,
            List.filter is_network
              (map (fun det => Toast Success
                                 ("✅ " +:+ Hub.name det +:+ " marked present")
                                 (Some 3000%Z)) l) = []).
  { induction l as [|d l IHl]; [reflexivity | exact IHl]. }
  rewrite Hnone. reflexivity.
Qed.


Section StreamingCycle.
Import Hub.

(** A click on Start Camera with a session, the camera granted. *)
Lemma clickStartCamera_run (wsHost : string) (ws : nat) (stream : MediaStream)
    (p : Page) (ts : Tracks) :
  is_Some (session p) ->
  clickStartCamera wsHost ws (Resolved stream) p ts
  = mkResult tt
      (commit
         (set_wsRef (Some ws)
            (set_videoRef
               (match videoRef p with
                | Some _ => Some {| srcObject := Some stream |}
                | None => None
                end)
               (set_streamRef (Some stream) p))))
      (foldr (fun t m => <[t := Live]> m) ts (getTracks stream))
      [GetUserMedia 640 480; NewWebSocket (wsHost +:+ "/api/attendance/ws")].
Proof.
  intros [sess Hs]. destruct p as [se lg sg sm vr cr sr wr fr ir].
  hub_fields. subst se.
  unfold clickStartCamera, startStreaming, startStreaming_begin,
    startStreaming_then.
  run_act. hub_fields. destruct vr; reflexivity.
Qed.

Lemma opened_run (timer : Z) (p : Page) (ts : Tracks) :
  opened timer p ts
  = mkResult tt
      {| session := session p; logs := logs p; streaming := true;
         summary := summary p;
         videoRef := Some (default {| srcObject := None |} (videoRef p));
         canvasRef := canvasRef p; streamRef := streamRef p; wsRef := wsRef p;
         feedImgRef := Some (default {| src := "" |} (feedImgRef p));
         intervalRef := Some timer |}
      ts
      [Toast Success "Camera feed started" None; SetInterval 200].
Proof.
  destruct p. reflexivity.
Qed.

Lemma clickStopCamera_run (p : Page) (ts : Tracks) :
  clickStopCamera p ts
  = mkResult tt
      {| session := session p; logs := logs p; streaming := false;
         summary := summary p; videoRef := None;
         canvasRef := canvasRef p; streamRef := None; wsRef := None;
         feedImgRef := None;
         intervalRef := match intervalRef p with
                        | Some timer => if truthy_num timer then None else Some timer
                        | None => None
                        end |}
      (tracks (stopStreaming p ts)) (effects (stopStreaming p ts)).
Proof.
  unfold clickStopCamera. run_act. rewrite stopStreaming_run.
  cbn [page tracks effects]. rewrite app_nil_r. reflexivity.
Qed.

End StreamingCycle.

(** [X14] After a click on Start Camera on a rendered page that has a
    session and is not streaming, the camera granted, and after the
    socket has opened: the page holds the stream, the socket and the
    timer, the streaming flag is on and the feed image is in the
    document; the hidden video that sendFrame draws from was created by
    this last render and has no source object, since startStreaming
    hands the stream only to a video element that is already there when
    the camera is granted. *)
Theorem hidden_video_has_no_source
  (wsHost : string) (ws : nat) (timer : Z) (stream : MediaStream)
  (p : Hub.Page) (ts : Tracks) :
  is_Some (Hub.session p) ->
  Hub.streaming p = false ->
  Hub.videoRef p = None ->
  let res := (Hub.clickStartCamera wsHost ws (Resolved stream) ;;
              Hub.opened timer) p ts in
  Hub.streamRef (page res) = Some stream
  /\ Hub.wsRef (page res) = Some ws
  /\ Hub.intervalRef (page res) = Some timer
  /\ Hub.streaming (page res) = true
  /\ is_Some (Hub.feedImgRef (page res))
  /\ Hub.videoRef (page res) = Some {| Hub.srcObject := None |}
  /\ effects res
     = [GetUserMedia 640 480; NewWebSocket (wsHost +:+ "/api/attendance/ws");
        Toast Success "Camera feed started" None; SetInterval 200].
Proof.
  intros Hs Hoff Hv. cbn zeta.
  rewrite page_bind, effects_bind. cbv beta.
  rewrite !(clickStartCamera_run wsHost ws stream p ts Hs).
  cbn [value page tracks effects]. rewrite !opened_run.
  cbn [page effects]. unfold Hub.commit. hub_fields. rewrite Hoff, Hv.
  hub_fields. repeat split; eauto.
Qed.

Lemma hidden_video_has_no_source_witness :
  let sess := {| Hub.session_id := 1; Hub.start_time := "2024-01-01T09:00:00";
                 Hub.session_status := "active" |} in
  let p := Hub.setSession (Some sess) Hub.initial in
  let res := (Hub.clickStartCamera "ws://localhost:5173" 1
                (Resolved {| getTracks := [1] |}) ;; Hub.opened 1) p ∅ in
  Hub.streamRef (page res) = Some {| getTracks := [1] |}
  /\ Hub.videoRef (page res) = Some {| Hub.srcObject := None |}.
Proof.
  intros sess p.
  destruct (hidden_video_has_no_source "ws://localhost:5173" 1 1
              {| getTracks := [1] |} p ∅) as (H1 & _ & _ & _ & _ & H2 & _);
    [by eexists | reflexivity | reflexivity |].
  split; [exact H1 | exact H2].
Defined.


Section ServerClose.
Import Hub.

Lemma closed_run (p : Page) (ts : Tracks) :
  closed p ts
  = mkResult tt
      {| session := session p; logs := logs p; streaming := false;
         summary := summary p; videoRef := None; canvasRef := canvasRef p;
         streamRef := streamRef p; wsRef := wsRef p; feedImgRef := None;
         intervalRef := intervalRef p |}
      ts [].
Proof.
  destruct p. reflexivity.
Qed.

End ServerClose.

(** [X16] When the server closes the socket, only the streaming flag
    goes off: the page keeps the stream and the timer handle and offers
    Start Camera again.  A loop started from there takes a new stream
    and a new timer over the old handles, so the Stop Camera that ends
    it cancels the new timer and closes the new socket only: the timer
    of the first loop is never cancelled, and a track of the first
    stream is still live. *)
Theorem restart_after_close_orphans
  (wsHost : string) (ws : nat) (timer old_timer : Z) (old new : MediaStream)
  (p : Hub.Page) (ts : Tracks) (t : nat) :
  is_Some (Hub.session p) ->
  Hub.streamRef p = Some old ->
  Hub.intervalRef p = Some old_timer ->
  t ∈ getTracks old ->
  t ∉ getTracks new ->
  ts !! t = Some Live ->
  truthy_num timer = true ->
  let after_close := page (Hub.closed p ts) in
  let res := (Hub.closed ;;
              Hub.clickStartCamera wsHost ws (Resolved new) ;;
              Hub.opened timer ;;
              Hub.clickStopCamera) p ts in
  (Hub.controls after_close = [Hub.StartCamera; Hub.EndSession]
   /\ Hub.streamRef after_close = Some old
   /\ Hub.intervalRef after_close = Some old_timer)
  /\ effects res
     = [GetUserMedia 640 480; NewWebSocket (wsHost +:+ "/api/attendance/ws");
        Toast Success "Camera feed started" None; SetInterval 200;
        ClearInterval timer; WsClose ws]
  /\ tracks res !! t = Some Live
  /\ Hub.stopped (page res).
Proof.
  intros [sess Hs] Hst Hiv Hold Hnew Hlive Htimer. cbn zeta.
  rewrite !closed_run. cbn [page]. unfold Hub.controls. hub_fields.
  rewrite Hs, Hst, Hiv. split; [repeat split; reflexivity|].
  rewrite page_bind, tracks_bind, effects_bind, !closed_run. cbv beta.
  cbn [value page tracks effects].
  rewrite page_bind, tracks_bind, effects_bind. cbv beta.
  rewrite !clickStartCamera_run by (hub_fields; rewrite Hs; by eexists).
  cbn [value page tracks effects].
  rewrite page_bind, tracks_bind, effects_bind, !opened_run. cbv beta.
  cbn [value page tracks effects].
  rewrite !clickStopCamera_run, !stopStreaming_run. cbn [page tracks effects].
  unfold Hub.commit, Hub.stopped. hub_fields. rewrite Htimer. cbn [truthy_id app].
  split; [reflexivity|]. split; [|repeat split; reflexivity].
  rewrite stopped_lookup, acquired_lookup. by repeat case_decide.
Qed.

Lemma restart_after_close_orphans_witness :
  let sess := {| Hub.session_id := 1; Hub.start_time := "2024-01-01T09:00:00";
                 Hub.session_status := "active" |} in
  let p := Hub.set_intervalRef (Some 5%Z)
             (Hub.set_streamRef (Some {| getTracks := [1] |})
                (Hub.setStreaming true (Hub.setSession (Some sess) Hub.initial))) in
  let res := (Hub.closed ;;
              Hub.clickStartCamera "ws://localhost:5173" 2
                (Resolved {| getTracks := [2] |}) ;;
              Hub.opened 6 ;; Hub.clickStopCamera) p {[ 1 := Live ]} in
  tracks res !! 1 = Some Live /\ Hub.stopped (page res).
Proof.
  intros sess p.
  assert (Hs : is_Some (Hub.session p)) by (by eexists).
  assert (Hold : 1 ∈ getTracks {| getTracks := [1] |})
    by apply list_elem_of_here.
  assert (Hnew : 1 ∉ getTracks {| getTracks := [2] |}).
  { intros Hin. apply elem_of_cons in Hin as [Heq | Hin];
      [discriminate | by apply elem_of_nil in Hin]. }
  destruct (restart_after_close_orphans "ws://localhost:5173" 2 6 5
              {| getTracks := [1] |} {| getTracks := [2] |} p {[ 1 := Live ]} 1
              Hs eq_refl eq_refl Hold Hnew (lookup_singleton_eq _ _) eq_refl)
    as (_ & _ & H1 & H2).
  split; [exact H1 | exact H2].
Defined.

(** [X17] The life of a session.  A session the backend starts becomes
    the page's session, the summary of an earlier session disappears,
    and the roll call of the new session is asked for; a start the
    backend refuses changes nothing.  A stop the backend accepts, after
    the streaming loop has been torn down, clears the session and shows
    the summary it returned; the header then offers Start Session
    only. *)
Theorem session_lifecycle
  (data : Hub.Session) (sum : Hub.Summary) (detail : option string)
  (p : Hub.Page) (ts : Tracks) :
  (let res := Hub.startSession (Resolved data) p ts in
   page res = Hub.setSummary None (Hub.setSession (Some data) p)
   /\ effects res
      = [ApiPost AttendanceStart NoBody;
         Toast Success "Attendance session started!" None;
         ApiGet (SessionLogs (Hub.session_id data))])
  /\ (let res := Hub.startSession (Rejected detail) p ts in
      page res = p
      /\ effects res
         = [ApiPost AttendanceStart NoBody;
            Toast Error (js_or detail "Failed to start session") None])
  /\ (let res := Hub.stopSession (Resolved sum) p ts in
      page res
      = Hub.setSession None (Hub.setSummary (Some sum)
                               (page (Hub.stopStreaming p ts)))
      /\ Hub.stopped (page res)
      /\ Hub.logs (page res) = Hub.logs p
      /\ Hub.controls (page res) = [Hub.StartSession]
      /\ tracks res = tracks (Hub.stopStreaming p ts)
      /\ effects res
         = effects (Hub.stopStreaming p ts)
           ++ [ApiPost AttendanceStop NoBody;
               Toast Success "Session ended. Summary generated." None]).
Proof.
  split; [|split].
  - split; reflexivity.
  - split; reflexivity.
  - cbn zeta.
    unfold Hub.stopSession, Hub.stopSession_begin, Hub.stopSession_then.
    run_act. rewrite !stopStreaming_run. cbn [page tracks effects].
    unfold Hub.stopped, Hub.controls. hub_fields. rewrite <- app_assoc.
    repeat split; try reflexivity.
    destruct (Hub.intervalRef p) as [timer|]; [|reflexivity].
    destruct (truthy_num timer) eqn:Htimer; cbn [truthy_id]; auto.
Qed.

(** [X18] What the header offers matches what the handlers need.  Start
    Session is offered exactly when the page has no session; Start
    Camera exactly when it has one and is not streaming, Stop Camera
    exactly when it has one and is streaming, End Session exactly when
    it has one.  So a click on Start Camera always gets past the
    session guard of startStreaming and asks for the camera, and a
    click on an override button always sends its request. *)
Theorem controls_match_guards (r p : Hub.Page) (ts : Tracks) :
  (Hub.StartSession ∈ Hub.controls r <-> Hub.session r = None)
  /\ (Hub.StartCamera ∈ Hub.controls r
      <-> is_Some (Hub.session r) /\ Hub.streaming r = false)
  /\ (Hub.StopCamera ∈ Hub.controls r
      <-> is_Some (Hub.session r) /\ Hub.streaming r = true)
  /\ (Hub.EndSession ∈ Hub.controls r <-> is_Some (Hub.session r))
  /\ (Hub.StartCamera ∈ Hub.controls r ->
      effects (Hub.startStreaming_begin r p ts) = [GetUserMedia 640 480])
  /\ (forall log, is_Some (Hub.override_button r log) ->
        exists sess,
          Hub.session r = Some sess
          /\ effects (Hub.toggleStatus_begin r log p ts)
             = [ApiPost AttendanceOverride
                  (Override (Hub.session_id sess) (Hub.student_id log)
                     (Hub.newStatus log))]).
Proof.
  unfold Hub.controls, Hub.override_button, Hub.startStreaming_begin,
    Hub.toggleStatus_begin.
  destruct (Hub.session r) as [sess|], (Hub.streaming r);
    rewrite ?elem_of_cons, ?elem_of_nil;
    repeat split; intros;
    repeat match goal with
      | H : _ \/ _ |- _ => destruct H
      | H : _ /\ _ |- _ => destruct H
      | H : is_Some None |- _ => destruct H as [? H]
      | H : False |- _ => destruct H
      | H : _ = _ |- _ => discriminate H
      end;
    eauto 6.
Qed.

(** ** The routes in front of the two pages *)

(** [X19] Whatever route of the table is taken, an admin screen (the
    dashboard, the student management page, the attendance hub) is
    rendered only when authentication has finished loading, a user is
    logged in and that user is an admin; the student view is rendered
    only for a logged-in user; and while authentication is loading every
    protected route shows the spinner. *)
Theorem admin_screens_need_admin
  (auth : App.Auth) (path : string) (element : App.Element) :
  (path, element) ∈ App.routes auth ->
  (forall screen,
     element = App.Render screen ->
     (App.admin_screen screen = true ->
      App.loading auth = false /\ is_Some (App.user auth)
      /\ App.isAdmin auth = true)
     /\ (screen = App.StudentViewPage ->
         App.loading auth = false /\ is_Some (App.user auth)))
  /\ (App.loading auth = true ->
      path <> "/login" -> path <> "*" -> element = App.Spinner).
Proof.
  intros Hin. unfold App.routes, App.ProtectedRoute in Hin.
  destruct auth as [[u|] [|] [|]]; cbn [App.loading App.user App.isAdmin] in *;
    repeat (apply elem_of_cons in Hin as [Hin|Hin];
            [injection Hin as -> ->; cbn [andb negb];
             split; [intros screen Hs; try discriminate Hs;
                     injection Hs as <-; split; intros H;
                     try discriminate H; eauto
                    | intros H H1 H2; try discriminate H; try reflexivity;
                      congruence] |]);
    by apply elem_of_nil in Hin.
Qed.

Lemma admin_screens_need_admin_witness :
  let auth := {| App.user := Some {| App.user_name := "Asha"; App.role := "admin" |};
                 App.loading := false; App.isAdmin := true |} in
  (("/students", App.Render App.StudentManagementPage) ∈ App.routes auth)
  /\ App.loading auth = false /\ is_Some (App.user auth)
  /\ App.isAdmin auth = true.
Proof.
  intros auth.
  assert (Hin : ("/students", App.Render App.StudentManagementPage)
                ∈ App.routes auth).
  { unfold App.routes. do 2 apply list_elem_of_further. apply list_elem_of_here. }
  split; [exact Hin|].
  destruct (admin_screens_need_admin auth "/students"
              (App.Render App.StudentManagementPage) Hin) as [H _].
  destruct (H App.StudentManagementPage eq_refl) as [Hadmin _].
  exact (Hadmin eq_refl).
Defined.

(** [X20] Once authentication has finished loading, every route of the
    table comes to rest on a screen after at most two redirects: on the
    login page when nobody is logged in, and on an admin screen only
    for an admin.  While it is loading, a protected route stays on the
    spinner. *)
Theorem routes_settle
  (auth : App.Auth) (path : string) (element : App.Element) :
  App.loading auth = false ->
  (path, element) ∈ App.routes auth ->
  exists screen,
    App.settle 2 auth element = Some screen
    /\ (App.user auth = None -> screen = App.LoginPage)
    /\ (App.admin_screen screen = true ->
        is_Some (App.user auth) /\ App.isAdmin auth = true).
Proof.
  intros Hload Hin. unfold App.routes, App.ProtectedRoute in Hin.
  destruct auth as [[[nm rl]|] ld [|]]; cbn [App.loading App.user App.isAdmin] in *;
    subst ld;
    repeat (apply elem_of_cons in Hin as [Hin|Hin];
            [injection Hin as -> ->; cbn [andb negb App.role];
             try destruct (String.eqb rl "admin");
             eexists; (split; [vm_compute; reflexivity|]);
             split; intros H; try discriminate H; eauto |]);
    by apply elem_of_nil in Hin.
Qed.

Lemma routes_settle_witness :
  let auth := {| App.user := Some {| App.user_name := "Asha"; App.role := "student" |};
                 App.loading := false; App.isAdmin := false |} in
  exists screen,
    App.settle 2 auth (App.Navigate "/student-view") = Some screen
    /\ (App.admin_screen screen = true ->
        is_Some (App.user auth) /\ App.isAdmin auth = true).
Proof.
  intros auth.
  destruct (routes_settle auth "/attendance" (App.Navigate "/student-view") eq_refl)
    as (screen & H1 & _ & H2).
  - unfold App.routes. do 3 apply list_elem_of_further. apply list_elem_of_here.
  - exists screen. split; [exact H1 | exact H2].
Defined.

(** ** A refused start *)

Section RefusedStart.
Import SM.

Lemma clickCapture_mounted (f : Frame) (p : Page) (ts : Tracks) :
  modal_mounted p ->
  clickCapture f p ts
  = mkResult tt
      (setCurrentAngle (currentAngle p + 1)
         (setCapturedImages (capturedImages p ++ [b64 f])
            (set_canvasRef
               (Some {| width := videoWidth f; height := videoHeight f |}) p)))
      ts
      (if length CAPTURE_ANGLES <=? currentAngle p + 1
       then [Toast Success "All angles captured!" None] else []).
Proof.
  intros (Hid & [v Hv] & [c Hc]).
  destruct p as [sts sf fm cap imgs ang vr cr sr]; sm_fields; subst.
  unfold clickCapture, captureFrame, commit. run_act. sm_fields.
  destruct (length CAPTURE_ANGLES <=? ang + 1); run_act; sm_fields;
    rewrite Hid; reflexivity.
Qed.

(** Clicks on Capture while the modal is on display, whether or not the
    camera has answered. *)
Lemma clicks_mounted (frames : list Frame) :
  forall (p : Page) (ts : Tracks),
    modal_mounted p ->
    let res := clicks frames p ts in
    page res
    = setCurrentAngle (currentAngle p + length frames)
        (setCapturedImages (capturedImages p ++ map b64 frames)
           (set_canvasRef (canvasRef (page res)) p))
    /\ tracks res = ts
    /\ effects res
       = flat_map (fun a => if length CAPTURE_ANGLES <=? a + 1
                            then [Toast Success "All angles captured!" None]
                            else [])
           (seq (currentAngle p) (length frames)).
Proof.
  induction frames as [|f frames IH]; intros p ts Hm.
  - cbn. rewrite app_nil_r, Nat.add_0_r. destruct p; auto.
  - unfold clicks in *. cbn [forEach length seq flat_map map].
    rewrite page_bind, tracks_bind, effects_bind.
    rewrite (clickCapture_mounted f p ts Hm). cbn [value page tracks effects].
    match goal with
    | |- context [forEach frames clickCapture ?q ts] =>
        assert (Hq : modal_mounted q)
          by (destruct Hm as (Hid & Hv & _); unfold modal_mounted; sm_fields;
              eauto);
        destruct (IH q ts Hq) as (Hp & Ht & He)
    end.
    rewrite Ht, He. sm_fields.
    replace (S (currentAngle p)) with (currentAngle p + 1) by lia.
    split; [|split; reflexivity].
    rewrite Hp at 1. sm_fields. rewrite <- app_assoc.
    replace (currentAngle p + 1 + length frames)
      with (currentAngle p + S (length frames)) by lia.
    reflexivity.
Qed.

(** Without the modal a click on Capture, if one could happen, does
    nothing. *)
Lemma clicks_unmounted (frames : list Frame) (p : Page) (ts : Tracks) :
  truthy_id (capturing p) = false ->
  videoRef p = None ->
  canvasRef p = None ->
  clicks frames p ts = mkResult tt p ts [].
Proof.
  intros Hid Hv Hc. destruct p as [sts sf fm cap imgs ang vr cr sr].
  sm_fields. subst vr cr.
  induction frames as [|f frames IH]; [reflexivity|].
  unfold clicks in *. cbn [forEach].
  unfold mbind, Act_bind, act_bind.
  replace (clickCapture f _ ts)
    with (mkResult tt
            {| students := sts; showForm := sf; form := fm; capturing := cap;
               capturedImages := imgs; currentAngle := ang; videoRef := None;
               canvasRef := None; streamRef := sr |} ts []).
  - rewrite IH. reflexivity.
  - unfold clickCapture, captureFrame, commit. run_act. sm_fields.
    rewrite Hid. reflexivity.
Qed.

End RefusedStart.

(** A refused start does not leave the claimed page in two runs the
    code can have.  First: the page holds the stream of an earlier start
    (cancelled while its request was pending, granted afterwards); the
    refusal leaves that stream in place, its track live.  Second: the
    operator clicks Capture while the request is pending; after the
    refusal the list holds that entry and the angle index is 1. *)
Lemma startCapture_denied_keeps_stream_and_clicks :
  let cam := {| getTracks := [1] |} in
  let held :=
    (SM.startCapture_begin 7 ;; modify SM.commit ;;
     SM.stopCapture ;; modify SM.commit ;;
     acquire cam ;; SM.startCapture_then cam ;; modify SM.commit)
      SM.initial ∅ in
  let denied := SM.startCapture 7 (Rejected None) (page held) (tracks held) in
  let blank := {| SM.videoWidth := 0; SM.videoHeight := 0; SM.b64 := "" |} in
  let clicked := SM.startCapture_refused 7 [blank] SM.initial ∅ in
  (SM.capturing (page held) = None
   /\ SM.capturing (page denied) = None
   /\ SM.streamRef (page denied) = Some cam
   /\ tracks denied !! 1 = Some Live)
  /\ (SM.capturing (page clicked) = None
      /\ SM.streamRef (page clicked) = None
      /\ SM.capturedImages (page clicked) = [""]
      /\ SM.currentAngle (page clicked) = 1).
Proof.
  cbv zeta. repeat split; vm_compute; reflexivity.
Qed.

(** [C8, amended] startCapture when the camera is refused, with any
    clicks on Capture made while the request was pending: the refusal
    is reported by the "Camera access denied" toast, the capture marker
    is cleared and the modal is gone, no request goes to the backend,
    and the stream handle and the camera tracks are what they were
    before the call.  The list holds the images of those clicks and the
    index their number (no click is possible for the id 0, which shows
    no modal).  So with no click in between the list is empty and the
    index 0, and when the page held no stream before it holds none
    after. *)
Theorem startCapture_denied_aborts
  (p : SM.Page) (ts : Tracks) (studentId : Z) (detail : option string)
  (frames : list SM.Frame) :
  (let res := SM.startCapture_refused studentId frames p ts in
   page res
   = {| SM.students := SM.students p; SM.showForm := SM.showForm p;
        SM.form := SM.form p; SM.capturing := None;
        SM.capturedImages :=
          if truthy_num studentId then map SM.b64 frames else [];
        SM.currentAngle := if truthy_num studentId then length frames else 0;
        SM.videoRef := None; SM.canvasRef := None;
        SM.streamRef := SM.streamRef p |}
   /\ tracks res = ts
   /\ effects res
      = GetUserMedia 640 480
        :: (if truthy_num studentId
            then flat_map (fun a => if length SM.CAPTURE_ANGLES <=? a + 1
                                    then [Toast Success "All angles captured!" None]
                                    else [])
                   (seq 0 (length frames))
            else [])
        ++ [Toast Error "Camera access denied" None]
   /\ Forall (fun e => is_network e = false) (effects res))
  /\ (let res := SM.startCapture studentId (Rejected detail) p ts in
      SM.capturing (page res) = None
      /\ SM.capturedImages (page res) = []
      /\ SM.currentAngle (page res) = 0
      /\ SM.videoRef (page res) = None
      /\ SM.streamRef (page res) = SM.streamRef p
      /\ (SM.streamRef p = None -> SM.streamRef (page res) = None)
      /\ tracks res = ts
      /\ effects res
         = [GetUserMedia 640 480; Toast Error "Camera access denied" None]).
Proof.
  split.
  - cbn zeta.
    assert (Hrun :
      page (SM.startCapture_refused studentId frames p ts)
      = {| SM.students := SM.students p; SM.showForm := SM.showForm p;
           SM.form := SM.form p; SM.capturing := None;
           SM.capturedImages :=
             if truthy_num studentId then map SM.b64 frames else [];
           SM.currentAngle := if truthy_num studentId then length frames else 0;
           SM.videoRef := None; SM.canvasRef := None;
           SM.streamRef := SM.streamRef p |}
      /\ tracks (SM.startCapture_refused studentId frames p ts) = ts
      /\ effects (SM.startCapture_refused studentId frames p ts)
         = GetUserMedia 640 480
           :: (if truthy_num studentId
               then flat_map (fun a => if length SM.CAPTURE_ANGLES <=? a + 1
                                       then [Toast Success "All angles captured!" None]
                                       else [])
                      (seq 0 (length frames))
               else [])
           ++ [Toast Error "Camera access denied" None]).
    { unfold SM.startCapture_refused, SM.startCapture_begin, SM.startCapture_catch.
      destruct p as [sts sf fm cap imgs ang vr cr sr].
      run_act. unfold SM.commit. sm_fields. cbn [truthy_id].
      destruct (truthy_num studentId) eqn:Hid; sm_fields.
      - match goal with
        | |- context [SM.clicks frames ?q ts] =>
            assert (Hq : SM.modal_mounted q)
              by (unfold SM.modal_mounted; sm_fields; cbn [truthy_id];
                  rewrite ?Hid; eauto);
            destruct (clicks_mounted frames q ts Hq) as (Hp & Ht & He);
            destruct (SM.clicks frames q ts) as [[] p1 t1 e1]
        end.
        cbn [page tracks effects] in Hp, Ht, He |- *. subst t1 e1.
        rewrite Hp. sm_fields. rewrite ?app_nil_r.
        repeat split; reflexivity.
      - rewrite clicks_unmounted by (sm_fields; cbn [truthy_id]; auto).
        cbn [page tracks effects]. unfold SM.commit. sm_fields.
        repeat split; reflexivity. }
    destruct Hrun as (Hp & Ht & He). rewrite Hp, Ht, He.
    repeat split; try reflexivity.
    constructor; [reflexivity|]. apply Forall_app. split.
    + destruct (truthy_num studentId); [|constructor].
      apply Forall_flat_map, Forall_forall. intros a _.
      destruct (_ <=? _); repeat constructor.
    + repeat constructor.
  - cbn zeta. destruct p as [sts sf fm cap imgs ang vr cr sr].
    unfold SM.startCapture, SM.startCapture_begin, SM.startCapture_catch.
    run_act. unfold SM.commit. sm_fields. cbn [truthy_id].
    destruct (truthy_num studentId); sm_fields; cbn [truthy_id]; sm_fields;
      repeat split; auto.
Qed.

Lemma startCapture_denied_aborts_witness :
  let blank := {| SM.videoWidth := 0; SM.videoHeight := 0; SM.b64 := "" |} in
  SM.capturedImages (page (SM.startCapture_refused 7 [blank] SM.initial ∅)) = [""]
  /\ SM.capturing (page (SM.startCapture 7 (Rejected None) SM.initial ∅)) = None
  /\ SM.streamRef (page (SM.startCapture 7 (Rejected None) SM.initial ∅)) = None.
Proof.
  intros blank.
  destruct (startCapture_denied_aborts SM.initial ∅ 7 None [blank])
    as ((Hp & _) & (Hc & _ & _ & _ & _ & Hs & _)).
  cbn zeta in Hp. rewrite Hp.
  split; [reflexivity|]. split; [exact Hc | exact (Hs eq_refl)].
Defined.

(** ** The timer of the streaming loop *)

(** [X13] sendFrame, the callback of the timer.  When the hidden video,
    the canvas and the socket are there and the socket is open, it
    sends to that socket the encoded frame with the id of the session
    its render saw, and sizes the canvas to the video, or to 640x480
    where the video reports 0.  It sends in no other case, and then
    leaves the page as it is: so a tick that fires after stopStreaming,
    or on a rendered page whose streaming flag is off, sends nothing
    whatever the state of the socket. *)
Theorem sendFrame_sends_only_when_open
  (r p : Hub.Page) (readyState : nat -> Hub.ReadyState) (f : Hub.Frame) :
  (forall ws,
     is_Some (Hub.videoRef p) ->
     is_Some (Hub.canvasRef p) ->
     Hub.wsRef p = Some ws ->
     readyState ws = Hub.OPEN ->
     Hub.sendFrame r readyState f p
     = (Hub.set_canvasRef
          (Some {| Hub.width := if (Hub.videoWidth f =? 0)%Z
                                then 640%Z else Hub.videoWidth f;
                   Hub.height := if (Hub.videoHeight f =? 0)%Z
                                 then 480%Z else Hub.videoHeight f |}) p,
        Some {| Hub.out_ws := ws; Hub.out_frame := Hub.b64 f;
                Hub.out_session_id := Hub.session_id <$> Hub.session r |}))
  /\ (forall p' out,
        Hub.sendFrame r readyState f p = (p', Some out) ->
        is_Some (Hub.videoRef p)
        /\ is_Some (Hub.canvasRef p)
        /\ Hub.wsRef p = Some (Hub.out_ws out)
        /\ readyState (Hub.out_ws out) = Hub.OPEN
        /\ Hub.out_frame out = Hub.b64 f
        /\ Hub.out_session_id out = Hub.session_id <$> Hub.session r
        /\ p' = Hub.set_canvasRef
                  (Some {| Hub.width := if (Hub.videoWidth f =? 0)%Z
                                        then 640%Z else Hub.videoWidth f;
                           Hub.height := if (Hub.videoHeight f =? 0)%Z
                                         then 480%Z else Hub.videoHeight f |}) p)
  /\ (forall p', Hub.sendFrame r readyState f p = (p', None) -> p' = p)
  /\ (Hub.stopped p -> Hub.sendFrame r readyState f p = (p, None))
  /\ (Hub.streaming p = false ->
      Hub.sendFrame r readyState f (Hub.commit p) = (Hub.commit p, None)).
Proof.
  unfold Hub.sendFrame. split; [|split; [|split; [|split]]].
  - intros ws [v ->] [c ->] -> ->. unfold Hub.num_or, truthy_num.
    destruct (Hub.videoWidth f =? 0)%Z, (Hub.videoHeight f =? 0)%Z;
      reflexivity.
  - intros p' out.
    destruct (Hub.videoRef p) as [v|], (Hub.canvasRef p) as [c|],
      (Hub.wsRef p) as [ws|]; try discriminate.
    destruct (readyState ws) eqn:Hrs; try discriminate.
    intros [= <- <-]. cbn [Hub.out_ws Hub.out_frame Hub.out_session_id].
    unfold Hub.num_or, truthy_num.
    destruct (Hub.videoWidth f =? 0)%Z, (Hub.videoHeight f =? 0)%Z;
      cbn [negb]; repeat split; eauto.
  - intros p'.
    destruct (Hub.videoRef p) as [v|], (Hub.canvasRef p) as [c|],
      (Hub.wsRef p) as [ws|]; try (by intros [= <-]).
    destruct (readyState ws); try discriminate; by intros [= <-].
  - intros (_ & -> & _).
    destruct (Hub.videoRef p), (Hub.canvasRef p); reflexivity.
  - intros Hoff. unfold Hub.commit. rewrite Hoff. reflexivity.
Qed.

Lemma sendFrame_sends_only_when_open_witness :
  let sess := {| Hub.session_id := 4; Hub.start_time := "2024-01-01T09:00:00";
                 Hub.session_status := "active" |} in
  let r := Hub.setSession (Some sess) Hub.initial in
  let p := Hub.set_wsRef (Some 1)
             (Hub.set_videoRef (Some {| Hub.srcObject := None |})
                (Hub.setStreaming true r)) in
  let f := {| Hub.videoWidth := 0; Hub.videoHeight := 0; Hub.b64 := "QQ==" |} in
  Hub.sendFrame r (fun _ => Hub.OPEN) f p
  = (Hub.set_canvasRef (Some {| Hub.width := 640; Hub.height := 480 |}) p,
     Some {| Hub.out_ws := 1; Hub.out_frame := "QQ==";
             Hub.out_session_id := Some 4%Z |}).
Proof.
  intros sess r p f.
  destruct (sendFrame_sends_only_when_open r p (fun _ => Hub.OPEN) f)
    as (H & _).
  apply (H 1); [by eexists | by eexists | reflexivity | reflexivity].
Defined.

Section RunningLoop.
Import Hub.




End RunningLoop.



(** A tick that finds the socket open sizes the canvas, so after the
    loop the page differs from the page before it in the canvas. *)
Remark tick_resizes_canvas :
  let sess := {| Hub.session_id := 1; Hub.start_time := "2024-01-01T09:00:00";
                 Hub.session_status := "active" |} in
  let p := Hub.setSession (Some sess) Hub.initial in
  let f := {| Hub.videoWidth := 0; Hub.videoHeight := 0; Hub.b64 := "QQ==" |} in
  let res := (Hub.clickStartCamera "ws://localhost:5173" 1
                (Resolved {| getTracks := [1] |}) ;;
              Hub.opened 1 ;;
              Hub.loop p sess [Hub.Tick (fun _ => Hub.OPEN) f] ;;
              Hub.clickStopCamera) p ∅ in
  Hub.canvasRef p = Some {| Hub.width := 300; Hub.height := 150 |}
  /\ Hub.canvasRef (page res) = Some {| Hub.width := 640; Hub.height := 480 |}.
Proof.
  cbv zeta. split; vm_compute; reflexivity.
Qed.

(** [X21] Start Camera with a session, the camera granted, but a host
    from which no socket can be created ([new WebSocket] throws): the
    operator is told "Camera access denied"; no socket is stored and no
    timer runs, the streaming flag stays off and Start Camera stays on
    offer, while the granted stream is kept in streamRef with its tracks
    live. *)
Theorem startStreaming_throw_keeps_stream
  (stream : MediaStream) (p : Hub.Page) (ts : Tracks) :
  is_Some (Hub.session p) ->
  Hub.streaming p = false ->
  Hub.wsRef p = None ->
  let res := Hub.clickStartCamera_throw stream p ts in
  effects res = [GetUserMedia 640 480; Toast Error "Camera access denied" None]
  /\ Hub.streamRef (page res) = Some stream
  /\ (forall t, t ∈ getTracks stream -> tracks res !! t = Some Live)
  /\ Hub.wsRef (page res) = None
  /\ Hub.intervalRef (page res) = Hub.intervalRef p
  /\ Hub.streaming (page res) = false
  /\ Hub.controls (page res) = [Hub.StartCamera; Hub.EndSession].
Proof.
  intros [sess Hs] Hoff Hws. destruct p as [se lg sg sm vr cr sr wr fr ir].
  hub_fields. subst se sg wr. cbn zeta.
  unfold Hub.clickStartCamera_throw, Hub.startStreaming_begin,
    Hub.startStreaming_then_throw, Hub.startStreaming_catch.
  run_act. hub_fields.
  destruct vr as [v|]; run_act; unfold Hub.commit, Hub.controls; hub_fields;
    (repeat split; try reflexivity;
     intros t Hin; rewrite acquired_lookup; by case_decide).
Qed.

Lemma startStreaming_throw_keeps_stream_witness :
  let sess := {| Hub.session_id := 1; Hub.start_time := "2024-01-01T09:00:00";
                 Hub.session_status := "active" |} in
  let p := Hub.setSession (Some sess) Hub.initial in
  let res := Hub.clickStartCamera_throw {| getTracks := [1] |} p ∅ in
  Hub.streamRef (page res) = Some {| getTracks := [1] |}
  /\ Hub.wsRef (page res) = None.
Proof.
  intros sess p.
  destruct (startStreaming_throw_keeps_stream {| getTracks := [1] |} p ∅)
    as (_ & H1 & _ & H2 & _); [by eexists | reflexivity | reflexivity |].
  split; [exact H1 | exact H2].
Defined.
